(** * PaysheetImporter: a shallow embedding of [src/js/paysheet-importer.js]

    The development follows the class [PaysheetImporter]: the CSV parser,
    the header validator, the record normaliser
    ([processDataForLocalStorage]), the month table and the import
    orchestration with its Firebase attempt and its localStorage fallback.

    Conventions of the model.
    - A JavaScript string is a [string] of 8-bit code units; the character
      classes of [trim], [\s] and [toLowerCase] are those of the ASCII range.
    - A JavaScript number is an IEEE 754 binary64 value, here Rocq's
      primitive [float]; [+] is [PrimFloat.add].
    - A grid is a list of rows, a row a list of text cells, which is what
      [parseCSV] returns.
    - An object used as a map ([columnMap], [paysheetData.records]) is a
      [gmap] with string keys.
    - The clock ([new Date().toISOString()]) is read as a parameter [now]. *)

From Stdlib Require Import ZArith String Ascii List Lia Bool.
From Stdlib Require Import PrimFloat FloatOps SpecFloat FloatAxioms.
From Stdlib Require Import Decimal DecimalString DecimalNat.
From Stdlib Require Finite.
From stdpp Require Import base gmap strings list.

Local Open Scope string_scope.

(** ** JavaScript string primitives *)

Module JsString.

(** The quote character (code 34). *)
Definition dquote : ascii := ascii_of_nat 34.

(** [WhiteSpace] and [LineTerminator] code points of the ASCII range:
    TAB, LF, VT, FF, CR and SPACE. *)
Definition isWhiteSpace (c : ascii) : bool :=
  let n := nat_of_ascii c in
  ((9 <=? n)%nat && (n <=? 13)%nat) || (n =? 32)%nat.

Definition isDigit (c : ascii) : bool :=
  let n := nat_of_ascii c in (48 <=? n)%nat && (n <=? 57)%nat.

Definition lowerChar (c : ascii) : ascii :=
  let n := nat_of_ascii c in
  if (65 <=? n)%nat && (n <=? 90)%nat then ascii_of_nat (n + 32) else c.

(** [s.toLowerCase()] *)
Fixpoint toLowerCase (s : string) : string :=
  match s with
  | EmptyString => EmptyString
  | String c r => String (lowerChar c) (toLowerCase r)
  end.

Fixpoint trimStart (s : string) : string :=
  match s with
  | EmptyString => EmptyString
  | String c r => if isWhiteSpace c then trimStart r else s
  end.

Fixpoint trimEnd (s : string) : string :=
  match s with
  | EmptyString => EmptyString
  | String c r =>
      match trimEnd r with
      | EmptyString => if isWhiteSpace c then EmptyString else String c EmptyString
      | r' => String c r'
      end
  end.

(** [s.trim()] *)
Definition trim (s : string) : string := trimEnd (trimStart s).

(** [s.includes(sub)] *)
Fixpoint includes (s sub : string) : bool :=
  String.prefix sub s ||
  match s with
  | EmptyString => false
  | String _ r => includes r sub
  end.

(** [s.split(sep)] for a separator of one character. *)
Fixpoint split (sep : ascii) (s : string) : list string :=
  match s with
  | EmptyString => [EmptyString]
  | String c r =>
      if Ascii.eqb c sep then EmptyString :: split sep r
      else match split sep r with
           | h :: t => String c h :: t
           | [] => [String c EmptyString]
           end
  end.

Fixpoint filterChars (keep : ascii -> bool) (s : string) : string :=
  match s with
  | EmptyString => EmptyString
  | String c r => if keep c then String c (filterChars keep r) else filterChars keep r
  end.

(** [s.replace(/[\s\-_\.]/g, '')] *)
Definition stripSeparators (s : string) : string :=
  filterChars (fun c => negb (isWhiteSpace c || Ascii.eqb c "-" || Ascii.eqb c "_"
                              || Ascii.eqb c ".")) s.

Fixpoint dropLastIfQuote (s : string) : string :=
  match s with
  | EmptyString => EmptyString
  | String c EmptyString => if Ascii.eqb c dquote then EmptyString else s
  | String c r => String c (dropLastIfQuote r)
  end.

(** [s.replace(/^"|"$/g, '')]: one quote is removed at the start, and one
    at the end of what remains. *)
Definition stripQuotes (s : string) : string :=
  dropLastIfQuote
    match s with
    | String c r => if Ascii.eqb c dquote then r else s
    | EmptyString => EmptyString
    end.

Fixpoint rev (s : string) : string :=
  match s with
  | EmptyString => EmptyString
  | String c r => String.append (rev r) (String c EmptyString)
  end.

(** [s.endsWith(suffix)] *)
Definition endsWith (s suffix : string) : bool :=
  String.prefix (rev suffix) (rev s).

(** Decimal rendering of a non-negative integer in a template literal. *)
Definition ofNat (n : nat) : string := NilEmpty.string_of_uint (Nat.to_uint n).

End JsString.

(** ** JavaScript numbers: [parseFloat] and [||] *)

Module JsNumber.
Import JsString.

Definition signed (neg : bool) (x : float) : float :=
  if neg then PrimFloat.opp x else x.

(** The binary64 value nearest to [m * 10 ^ e] (ties to even), for
    [0 <= m]. The quotient of a negative power of ten is taken with 64
    spare bits and a sticky bit before it is rounded. *)
Definition decimalToDouble (neg : bool) (m e : Z) : float :=
  if (m =? 0)%Z then signed neg PrimFloat.zero
  else if (310 <=? e)%Z then signed neg PrimFloat.infinity
  else if ((Z.log2 m + 1) / 3 + 1 + e <=? -330)%Z then signed neg PrimFloat.zero
  else if (0 <=? e)%Z then
    signed neg (SF2Prim (binary_normalize prec emax (m * 10 ^ e) 0 false))
  else
    let d := (10 ^ (- e))%Z in
    let k := Z.max 0 (64 + Z.log2 d - Z.log2 m) in
    let n := (m * 2 ^ k)%Z in
    let sticky := if (n mod d =? 0)%Z then 0%Z else 1%Z in
    signed neg
      (SF2Prim (binary_normalize prec emax (2 * (n / d) + sticky) (- k - 1) false)).

(** [DecimalDigits]: the longest run of digits, as its value, its length,
    and what follows. *)
Fixpoint takeDigits (acc : Z) (len : nat) (s : string) : Z * nat * string :=
  match s with
  | String c r =>
      if isDigit c
      then takeDigits (10 * acc + Z.of_nat (nat_of_ascii c - 48)) (S len) r
      else (acc, len, s)
  | EmptyString => (acc, len, s)
  end.

Definition takeSign (s : string) : bool * string :=
  match s with
  | String c r =>
      if Ascii.eqb c "-" then (true, r)
      else if Ascii.eqb c "+" then (false, r)
      else (false, s)
  | EmptyString => (false, s)
  end.

(** [ExponentPart], when one is complete: [e] or [E], a sign, digits. *)
Definition takeExponent (s : string) : Z :=
  match s with
  | String c r =>
      if Ascii.eqb c "e" || Ascii.eqb c "E" then
        let '(neg, r1) := takeSign r in
        let '(v, len, _) := takeDigits 0 0 r1 in
        match len with
        | O => 0%Z
        | S _ => if neg then (- v)%Z else v
        end
      else 0%Z
  | EmptyString => 0%Z
  end.

(** [parseFloat(s)]: leading white space is skipped, and the longest
    prefix that is a [StrDecimalLiteral] is converted; [nan] when there is
    none. *)
Definition parseFloat (s : string) : float :=
  let '(neg, s1) := takeSign (trimStart s) in
  if String.prefix "Infinity" s1 then signed neg PrimFloat.infinity
  else
    let '(iv, ilen, s2) := takeDigits 0 0 s1 in
    match s2 with
    | String "." r =>
        let '(fv, flen, s3) := takeDigits iv 0 r in
        match ilen, flen with
        | O, O => PrimFloat.nan
        | _, _ => decimalToDouble neg fv (takeExponent s3 - Z.of_nat flen)
        end
    | _ =>
        match ilen with
        | O => PrimFloat.nan
        | S _ => decimalToDouble neg iv (takeExponent s2)
        end
    end.

(** [parseFloat(undefined)]: the argument is first converted to the
    string [undefined]. *)
Definition parseFloatOpt (cell : option string) : float :=
  match cell with
  | Some s => parseFloat s
  | None => parseFloat "undefined"
  end.

(** A number is falsy when it is [NaN], [+0] or [-0]. *)
Definition falsy (x : float) : bool := is_nan x || is_zero x.

(** [x || 0] *)
Definition orZero (x : float) : float := if falsy x then PrimFloat.zero else x.

End JsNumber.

(** ** Completions: a value, or a thrown [Error] with its message *)

Inductive completion (A : Type) : Type :=
| Normal (value : A)
| Throw (message : string).

Arguments Normal {A} value.
Arguments Throw {A} message.

(** ** The records the importer builds *)

Module PayRecord.
(** One element of [processedData]. *)
Record t : Type := mk {
  id : string;
  teacherId : string;
  teacherName : string;
  designation : string;
  qualification : string;
  payScale : string;
  payBand : string;
  agp : float;
  revisedBasicPay : float;
  da150 : float;
  hra30 : float;
  cla : float;
  addAllowance : float;
  grossTotal : float;
  profTax : float;
  incomeTax : float;
  pf : float;
  lic : float;
  medicalInsurance : float;
  ewFund : float;
  totalDeductions : float;
  netPay : float;
  basicSalary : float;
  da : float;
  hra : float;
  allowances : float;
  grossSalary : float;
  payDate : string;
  status : string;
  month : string;
  year : string;
  monthNum : string;
  createdAt : string
}.
End PayRecord.

Module Summary.
Record t : Type := mk {
  totalRecords : nat;
  totalGross : float;
  totalDeductions : float;
  totalNet : float
}.
End Summary.

Module SalarySlip.
(** The object written under [salarySlips/<slipId>]. A processed record
    has no [department], [esi], [tax] or [otherDeductions] property, so
    these four are read as [undefined], here [None]. *)
Record t : Type := mk {
  id : string;
  teacherId : string;
  teacherName : string;
  month : string;
  year : string;
  monthNum : string;
  payDate : string;
  designation : string;
  department : option string;
  basicSalary : float;
  hra : float;
  da : float;
  allowances : float;
  grossSalary : float;
  pf : float;
  esi : option float;
  tax : option float;
  otherDeductions : option float;
  totalDeductions : float;
  netPay : float;
  status : string;
  createdAt : string;
  paysheetId : string
}.
End SalarySlip.

Module Paysheet.
(** [records] is an object keyed by [teacherId] on the Firebase path and
    the array itself on the fallback path. *)
Inductive records : Type :=
| ByTeacher (byId : gmap string PayRecord.t)
| InOrder (rows : list PayRecord.t).

(** [paysheetData]; the fallback object has no [monthNum]. *)
Record t : Type := mk {
  month : string;
  year : string;
  monthNum : option string;
  importDate : string;
  records_ : records;
  summary : Summary.t
}.
End Paysheet.

(** What is handed to a store: the value given to [ref.set], or the value
    serialised by [JSON.stringify] for [localStorage.setItem]. *)
Inductive Stored : Type :=
| StoredPaysheet (paysheetData : Paysheet.t)
| StoredSlip (salarySlip : SalarySlip.t).

(** The object [importPaysheetFile] resolves to: [success: true] with the
    processed data and a [paysheetId] ([null] when only localStorage was
    written), or [success: false] with [data: null]. *)
Inductive ImportResult : Type :=
| Imported (message : string) (data : list PayRecord.t) (paysheetId : option string)
| Failed (message : string).

Definition success (r : ImportResult) : bool :=
  match r with
  | Imported _ _ _ => true
  | Failed _ => false
  end.

Definition message (r : ImportResult) : string :=
  match r with
  | Imported m _ _ => m
  | Failed m => m
  end.

(** A [File]: its name and what a [FileReader] delivers, [None] when the
    reader reports an error. *)
Record File : Type := { name : string; content : option string }.

(** ** The pure part of [PaysheetImporter] *)

Module Importer.
Import JsString JsNumber.

Definition Row : Type := list string.
Definition Grid : Type := list Row.

(** *** [parseCSV] *)

Definition lineFeed : ascii := ascii_of_nat 10.

(** [cell => cell.trim().replace(/^"|"$/g, '')] *)
Definition cleanCell (cell : string) : string := stripQuotes (trim cell).

Definition parseLine (line : string) : Row := map cleanCell (split "," line).

(** The [for (let line of lines)] loop, [result] being the array pushed to. *)
Fixpoint parseLines (lines : list string) (result : Grid) : Grid :=
  match lines with
  | [] => result
  | line :: rest =>
      match trim line with
      | EmptyString => parseLines rest result
      | _ => parseLines rest (result ++ [parseLine line])%list
      end
  end.

Definition parseCSV (csvContent : string) : Grid :=
  parseLines (split lineFeed csvContent) [].

(** *** [validatePaysheetData] *)

Record RequiredColumn : Type := { columnName : string; patterns : list string }.

Definition requiredColumns : list RequiredColumn :=
  [ {| columnName := "Teacher ID";
       patterns := ["teacher_id"; "teacherid"; "id"; "emp_id"; "employee_id"; "staff_id"] |};
    {| columnName := "Teacher Name";
       patterns := ["teacher_name"; "teachername"; "name"; "employee_name"; "staff_name";
                    "full_name"] |};
    {| columnName := "Basic Salary";
       patterns := ["basic_salary"; "basicsalary"; "basic"; "base_salary"; "salary"] |} ].

(** [h => h.toLowerCase().replace(/[\s\-_\.]/g, '').trim()] *)
Definition normalizeHeader (h : string) : string :=
  trim (stripSeparators (toLowerCase h)).

Definition patternMatches (header pattern : string) : bool :=
  includes header (stripSeparators pattern) || includes (stripSeparators pattern) header.

(** [normalizedHeaders.some(header => required.patterns.some(...))] *)
Definition found (required : RequiredColumn) (normalizedHeaders : list string) : bool :=
  existsb (fun header => existsb (patternMatches header) (patterns required))
          normalizedHeaders.

Definition tooFewRows : string :=
  "File must contain at least header row and one data row".

(** The names of the required columns for which [console.warn] is called. *)
Definition warnings (headers : Row) : list string :=
  let normalizedHeaders := map normalizeHeader headers in
  map columnName
      (List.filter (fun required => negb (found required normalizedHeaders))
                   requiredColumns).

(** [validatePaysheetData(data)], [None] standing for a [null] argument:
    the warnings written to the console, and the completion. *)
Definition validatePaysheetData (data : option Grid) : list string * completion bool :=
  match data with
  | None => ([], Throw tooFewRows)
  | Some rows =>
      if (length rows <? 2)%nat then ([], Throw tooFewRows)
      else
        match rows with
        | headers :: _ => (warnings headers, Normal true)
        | [] => ([], Normal true)
        end
  end.

(** *** [getMonthNumber] *)

Definition months : gmap string string :=
  list_to_map
    [ ("January", "01"); ("February", "02"); ("March", "03"); ("April", "04");
      ("May", "05"); ("June", "06"); ("July", "07"); ("August", "08");
      ("September", "09"); ("October", "10"); ("November", "11"); ("December", "12") ].

(** [months[monthName] || '01'] (own properties of the table only). *)
Definition getMonthNumber (monthName : string) : string :=
  default "01" (months !! monthName).

(** *** [processDataForLocalStorage] *)

(** The body of [headers.forEach((header, index) => ...)]. *)
Definition assignColumn (header : string) (index : nat) (columnMap : gmap string nat)
  : gmap string nat :=
  let normalizedHeader := trim (toLowerCase header) in
  let has := includes normalizedHeader in
  if has "teacher" && has "id" then <["teacherId" := index]> columnMap
  else if has "name" && has "staff" then <["teacherName" := index]> columnMap
  else if has "designation" then <["designation" := index]> columnMap
  else if has "qualification" then <["qualification" := index]> columnMap
  else if has "pay scale" || has "payscale" then <["payScale" := index]> columnMap
  else if has "pay" && has "band" then <["payBand" := index]> columnMap
  else if has "a.g.p" || has "agp" then <["agp" := index]> columnMap
  else if has "revised" && has "basic" then <["revisedBasicPay" := index]> columnMap
  else if has "d.a" && has "150" then <["da150" := index]> columnMap
  else if has "h.r.a" && has "30" then <["hra30" := index]> columnMap
  else if has "c.l.a" then <["cla" := index]> columnMap
  else if has "add" && has "allowance" then <["addAllowance" := index]> columnMap
  else if has "gross" && has "total" then <["grossTotal" := index]> columnMap
  else if has "prof" && has "tax" then <["profTax" := index]> columnMap
  else if has "income" && has "tax" then <["incomeTax" := index]> columnMap
  else if has "p.f" || String.eqb normalizedHeader "pf" then <["pf" := index]> columnMap
  else if has "lic" then <["lic" := index]> columnMap
  else if has "medical" && has "insur" then <["medicalInsurance" := index]> columnMap
  else if has "ew" && has "fund" then <["ewFund" := index]> columnMap
  else if has "total" && has "deduction" then <["totalDeductions" := index]> columnMap
  else if has "net" && has "pay" then <["netPay" := index]> columnMap
  else columnMap.

(** [headers.forEach] from position [index] on. *)
Fixpoint mapHeaders (headers : Row) (index : nat) (columnMap : gmap string nat)
  : gmap string nat :=
  match headers with
  | [] => columnMap
  | header :: rest => mapHeaders rest (S index) (assignColumn header index columnMap)
  end.

Definition buildColumnMap (headers : Row) : gmap string nat := mapHeaders headers 0 ∅.

(** [row[columnMap.field]]: [undefined], here [None], when the field is
    not mapped or the row is shorter than the column. *)
Definition cell (row : Row) (columnMap : gmap string nat) (field : string)
  : option string :=
  columnMap !! field ≫= fun index => row !! index.

(** [row[columnMap.field] || ''] *)
Definition text (row : Row) (columnMap : gmap string nat) (field : string) : string :=
  default "" (cell row columnMap field).

(** [parseFloat(row[columnMap.field]) || 0] *)
Definition currency (row : Row) (columnMap : gmap string nat) (field : string) : float :=
  orZero (parseFloatOpt (cell row columnMap field)).

(** [row[columnMap.teacherId] || i] inside the template literal. *)
Definition idOrOrdinal (row : Row) (columnMap : gmap string nat) (i : nat) : string :=
  match cell row columnMap "teacherId" with
  | Some (String c r) => String c r
  | _ => ofNat i
  end.

(** [now.split('T')[0]] *)
Definition datePart (now : string) : string := hd "" (split "T" now).

Definition buildRecord (row : Row) (i : nat) (columnMap : gmap string nat)
    (month year now : string) : PayRecord.t :=
  {| PayRecord.id := idOrOrdinal row columnMap i +:+ "_" +:+ month +:+ "_" +:+ year;
     PayRecord.teacherId := text row columnMap "teacherId";
     PayRecord.teacherName := text row columnMap "teacherName";
     PayRecord.designation := text row columnMap "designation";
     PayRecord.qualification := text row columnMap "qualification";
     PayRecord.payScale := text row columnMap "payScale";
     PayRecord.payBand := text row columnMap "payBand";
     PayRecord.agp := currency row columnMap "agp";
     PayRecord.revisedBasicPay := currency row columnMap "revisedBasicPay";
     PayRecord.da150 := currency row columnMap "da150";
     PayRecord.hra30 := currency row columnMap "hra30";
     PayRecord.cla := currency row columnMap "cla";
     PayRecord.addAllowance := currency row columnMap "addAllowance";
     PayRecord.grossTotal := currency row columnMap "grossTotal";
     PayRecord.profTax := currency row columnMap "profTax";
     PayRecord.incomeTax := currency row columnMap "incomeTax";
     PayRecord.pf := currency row columnMap "pf";
     PayRecord.lic := currency row columnMap "lic";
     PayRecord.medicalInsurance := currency row columnMap "medicalInsurance";
     PayRecord.ewFund := currency row columnMap "ewFund";
     PayRecord.totalDeductions := currency row columnMap "totalDeductions";
     PayRecord.netPay := currency row columnMap "netPay";
     PayRecord.basicSalary := currency row columnMap "revisedBasicPay";
     PayRecord.da := currency row columnMap "da150";
     PayRecord.hra := currency row columnMap "hra30";
     PayRecord.allowances := currency row columnMap "addAllowance";
     PayRecord.grossSalary := currency row columnMap "grossTotal";
     PayRecord.payDate := datePart now;
     PayRecord.status := "paid";
     PayRecord.month := month;
     PayRecord.year := year;
     PayRecord.monthNum := getMonthNumber month;
     PayRecord.createdAt := now |}.

(** The loop [for (let i = 1; i < csvData.length; i++)], entered at row
    [i] with [rows] the rows from [i] on. *)
Fixpoint processRows (rows : Grid) (i : nat) (columnMap : gmap string nat)
    (month year now : string) (processedData : list PayRecord.t) : list PayRecord.t :=
  match rows with
  | [] => processedData
  | row :: rest =>
      if (length row <? 3)%nat
      then processRows rest (S i) columnMap month year now processedData
      else processRows rest (S i) columnMap month year now
             (processedData ++ [buildRecord row i columnMap month year now])%list
  end.

Definition processDataForLocalStorage (csvData : Grid) (month year now : string)
  : list PayRecord.t :=
  if (length csvData <? 2)%nat then []
  else
    match csvData with
    | headers :: rows => processRows rows 1 (buildColumnMap headers) month year now []
    | [] => []
    end.

(** *** The batch summary *)

(** [processedData.reduce((sum, record) => sum + f(record), 0)] *)
Definition total (f : PayRecord.t -> float) (processedData : list PayRecord.t) : float :=
  fold_left (fun sum record => PrimFloat.add sum (f record)) processedData PrimFloat.zero.

(** The [summary] object, written the same way on both paths. *)
Definition summarize (processedData : list PayRecord.t) : Summary.t :=
  {| Summary.totalRecords := length processedData;
     Summary.totalGross := total PayRecord.grossSalary processedData;
     Summary.totalDeductions := total PayRecord.totalDeductions processedData;
     Summary.totalNet := total PayRecord.netPay processedData |}.

End Importer.

(** ** Effects: the stores the importer talks to *)

Module Effects.

(** A computation over the state [World] of the external stores. It ends
    with a value or a thrown error, and in both cases with a new state:
    what was written before a failure stays written. *)
Definition Eff (World A : Type) : Type := World -> completion A * World.

#[global] Instance eff_ret {World : Type} : MRet (Eff World) :=
  fun A value w => (Normal value, w).

#[global] Instance eff_bind {World : Type} : MBind (Eff World) :=
  fun A B k m w =>
    match m w with
    | (Normal value, w') => k value w'
    | (Throw e, w') => (Throw e, w')
    end.

(** [throw new Error(message)] *)
Definition throw {World A : Type} (message : string) : Eff World A :=
  fun w => (Throw message, w).

(** A completion that does not touch the stores. *)
Definition lift {World A : Type} (c : completion A) : Eff World A :=
  fun w => (c, w).

(** [try { body } catch (error) { handler(error.message) }] *)
Definition tryCatch {World A : Type} (body : Eff World A)
    (handler : string -> Eff World A) : Eff World A :=
  fun w =>
    match body w with
    | (Normal value, w') => (Normal value, w')
    | (Throw e, w') => handler e w'
    end.

(** The external collaborators of [importPaysheetFile]. *)
Record Collaborators (World : Type) : Type := {
  (** [firebase.apps.length], [firebase.initializeApp(firebaseConfig)] and
      [new FirebaseDB()] *)
  firebaseStart : Eff World unit;
  (** [await firebase.database().ref(path).set(value)] *)
  firebaseSet : string -> Stored -> Eff World unit;
  (** [localStorage.setItem(key, JSON.stringify(value))] *)
  localStorageSetItem : string -> Stored -> Eff World unit;
  (** [XLSX.read] followed by [XLSX.utils.sheet_to_json] on the first sheet,
      the cells of the sheet taken as text *)
  xlsxFirstSheet : string -> completion (list (list string))
}.

Arguments firebaseStart {World} _.
Arguments firebaseSet {World} _ _ _.
Arguments localStorageSetItem {World} _ _ _.
Arguments xlsxFirstSheet {World} _ _.

End Effects.

(** ** [importPaysheetFile] *)

Module Pipeline.
Import JsString JsNumber Importer Effects.

Section WithCollaborators.
Context {World : Type} (env : Collaborators World).

(** *** [parseExcel] *)
Definition parseExcel (excelBuffer : string) : completion Grid :=
  match xlsxFirstSheet env excelBuffer with
  | Normal jsonData => Normal jsonData
  | Throw error => Throw ("Failed to parse Excel file: " +:+ error)
  end.

Definition isCSV (file : File) : bool :=
  endsWith (toLowerCase (name file)) ".csv".

Definition isExcel (file : File) : bool :=
  endsWith (toLowerCase (name file)) ".xlsx" || endsWith (toLowerCase (name file)) ".xls".

(** *** [readFile] *)
Definition readFile (file : File) : completion string :=
  if isCSV file then
    match content file with
    | Some result => Normal result
    | None => Throw "Failed to read CSV file"
    end
  else if isExcel file then
    match content file with
    | Some result => Normal result
    | None => Throw "Failed to read Excel file"
    end
  else Throw "Unsupported file format".

(** The choice of parser by the extension of the file name. *)
Definition parseFile (file : File) (fileContent : string) : completion Grid :=
  if isCSV file then Normal (parseCSV fileContent)
  else if isExcel file then parseExcel fileContent
  else Throw "Unsupported file format. Please use CSV or Excel files (.csv, .xlsx, .xls).".

(** The first statements of the outer [try]: read, parse, validate. *)
Definition loadGrid (file : File) : completion Grid :=
  match readFile file with
  | Throw e => Throw e
  | Normal fileContent =>
      match parseFile file fileContent with
      | Throw e => Throw e
      | Normal parsedData =>
          match snd (validatePaysheetData (Some parsedData)) with
          | Throw e => Throw e
          | Normal _ => Normal parsedData
          end
      end
  end.

(** [processedData.forEach(record => { paysheetData.records[record.teacherId] = record })] *)
Definition recordsByTeacher (processedData : list PayRecord.t) : gmap string PayRecord.t :=
  fold_left (fun records record => <[PayRecord.teacherId record := record]> records)
            processedData ∅.

Definition firebasePaysheet (processedData : list PayRecord.t) (month year now : string)
  : Paysheet.t :=
  {| Paysheet.month := month;
     Paysheet.year := year;
     Paysheet.monthNum := Some (getMonthNumber month);
     Paysheet.importDate := now;
     Paysheet.records_ := Paysheet.ByTeacher (recordsByTeacher processedData);
     Paysheet.summary := summarize processedData |}.

Definition localPaysheet (processedData : list PayRecord.t) (month year now : string)
  : Paysheet.t :=
  {| Paysheet.month := month;
     Paysheet.year := year;
     Paysheet.monthNum := None;
     Paysheet.importDate := now;
     Paysheet.records_ := Paysheet.InOrder processedData;
     Paysheet.summary := summarize processedData |}.

Definition salarySlip (record : PayRecord.t) (month year now paysheetKey : string)
  : SalarySlip.t :=
  {| SalarySlip.id := PayRecord.teacherId record +:+ "_" +:+ month +:+ "_" +:+ year;
     SalarySlip.teacherId := PayRecord.teacherId record;
     SalarySlip.teacherName := PayRecord.teacherName record;
     SalarySlip.month := month;
     SalarySlip.year := year;
     SalarySlip.monthNum := getMonthNumber month;
     SalarySlip.payDate := PayRecord.payDate record;
     SalarySlip.designation := PayRecord.designation record;
     SalarySlip.department := None;
     SalarySlip.basicSalary := PayRecord.basicSalary record;
     SalarySlip.hra := PayRecord.hra record;
     SalarySlip.da := PayRecord.da record;
     SalarySlip.allowances := PayRecord.allowances record;
     SalarySlip.grossSalary := PayRecord.grossSalary record;
     SalarySlip.pf := PayRecord.pf record;
     SalarySlip.esi := None;
     SalarySlip.tax := None;
     SalarySlip.otherDeductions := None;
     SalarySlip.totalDeductions := PayRecord.totalDeductions record;
     SalarySlip.netPay := PayRecord.netPay record;
     SalarySlip.status :=
       match PayRecord.status record with
       | EmptyString => "Generated"
       | s => s
       end;
     SalarySlip.createdAt := now;
     SalarySlip.paysheetId := paysheetKey |}.

(** [for (const record of processedData) { await salarySlipsRef.child(slipId).set(salarySlip) }] *)
Fixpoint saveSlips (processedData : list PayRecord.t) (month year now paysheetKey : string)
  : Eff World unit :=
  match processedData with
  | [] => mret tt
  | record :: rest =>
      let slip := salarySlip record month year now paysheetKey in
      firebaseSet env ("salarySlips/" +:+ SalarySlip.id slip) (StoredSlip slip);;
      saveSlips rest month year now paysheetKey
  end.

Definition firebaseMessage (n : nat) : string :=
  "Successfully imported " +:+ ofNat n +:+ " paysheet records to Firebase database".

Definition localMessage (n : nat) : string :=
  "Successfully imported " +:+ ofNat n
    +:+ " paysheet records to local storage (Firebase backup failed)".

(** The body of the inner [try]. *)
Definition firebaseAttempt (parsedData : Grid) (month year now : string)
  : Eff World ImportResult :=
  firebaseStart env;;
  let paysheetKey := month +:+ "_" +:+ year in
  let processedData := processDataForLocalStorage parsedData month year now in
  let paysheetData := firebasePaysheet processedData month year now in
  firebaseSet env ("paysheets/" +:+ paysheetKey) (StoredPaysheet paysheetData);;
  saveSlips processedData month year now paysheetKey;;
  let localPaysheetKey := "paysheet_" +:+ month +:+ "_" +:+ year in
  localStorageSetItem env localPaysheetKey (StoredPaysheet paysheetData);;
  mret (Imported (firebaseMessage (length processedData)) processedData (Some paysheetKey)).

(** The body of the inner [catch]. *)
Definition localStorageFallback (parsedData : Grid) (month year now : string)
  : Eff World ImportResult :=
  let paysheetKey := "paysheet_" +:+ month +:+ "_" +:+ year in
  let processedData := processDataForLocalStorage parsedData month year now in
  let paysheetData := localPaysheet processedData month year now in
  localStorageSetItem env paysheetKey (StoredPaysheet paysheetData);;
  mret (Imported (localMessage (length processedData)) processedData None).

(** [importPaysheetFile(file, month, year)] *)
Definition importPaysheetFile (file : File) (month year now : string)
  : Eff World ImportResult :=
  tryCatch
    (parsedData ← lift (loadGrid file);
     tryCatch (firebaseAttempt parsedData month year now)
              (fun _ => localStorageFallback parsedData month year now))
    (fun error => mret (Failed error)).

End WithCollaborators.

End Pipeline.

(** ** [getSampleCSVFormat] *)

Module Sample.
Import JsString Importer.

(** [cells.join(sep)] *)
Fixpoint join (sep : string) (cells : list string) : string :=
  match cells with
  | [] => EmptyString
  | [cell] => cell
  | cell :: rest => cell +:+ sep +:+ join sep rest
  end.

Definition headers : Row :=
  ["Teacher ID"; "Teacher Name"; "Designation"; "Department";
   "Basic Salary"; "HRA"; "DA"; "Allowances"; "Gross Salary";
   "PF"; "ESI"; "Tax"; "Other Deductions"; "Total Deductions";
   "Net Pay"; "Pay Date"; "Status"].

Definition sampleData : Grid :=
  [ ["T001"; "Dr. John Smith"; "Professor"; "Computer Science";
     "50000"; "15000"; "5000"; "3000"; "73000";
     "6000"; "1000"; "5000"; "500"; "12500";
     "60500"; "2025-01-31"; "Paid"];
    ["T002"; "Ms. Jane Doe"; "Associate Professor"; "Mathematics";
     "45000"; "13500"; "4500"; "2500"; "65500";
     "5400"; "900"; "4000"; "300"; "10600";
     "54900"; "2025-01-31"; "Paid"] ].

(** The text built in [getSampleCSVFormat], for any header row and any
    rows: the header line, then [csvContent += row.join(',') + '\n'] for
    each row. *)
Definition csvOf (headers : Row) (rows : Grid) : string :=
  fold_left (fun csvContent row => csvContent +:+ (join "," row +:+ String lineFeed EmptyString))
            rows (join "," headers +:+ String lineFeed EmptyString).

Definition getSampleCSVFormat : string := csvOf headers sampleData.

End Sample.

(** * Auxiliary definitions for the statements *)

Module Views.
Import JsString JsNumber Importer.

(** The data rows of a grid with their ordinals, the header being row 0. *)
Definition numbered (i : nat) (rows : Grid) : list (nat * Row) :=
  combine (seq i (length rows)) rows.

(** A data row the loop keeps, and a data row it skips. *)
Definition complete (entry : nat * Row) : bool := (3 <=? length (snd entry))%nat.

Definition skipped (row : Row) : bool := (length row <? 3)%nat.

(** The record emitted for a numbered data row. *)
Definition emit (columnMap : gmap string nat) (month year now : string)
    (entry : nat * Row) : PayRecord.t :=
  buildRecord (snd entry) (fst entry) columnMap month year now.

(** The property of [columnMap] that a header is assigned to, read off the
    conditions of [assignColumn] in their order. *)
Definition headerField (header : string) : option string :=
  let normalizedHeader := trim (toLowerCase header) in
  let has := includes normalizedHeader in
  if has "teacher" && has "id" then Some "teacherId"
  else if has "name" && has "staff" then Some "teacherName"
  else if has "designation" then Some "designation"
  else if has "qualification" then Some "qualification"
  else if has "pay scale" || has "payscale" then Some "payScale"
  else if has "pay" && has "band" then Some "payBand"
  else if has "a.g.p" || has "agp" then Some "agp"
  else if has "revised" && has "basic" then Some "revisedBasicPay"
  else if has "d.a" && has "150" then Some "da150"
  else if has "h.r.a" && has "30" then Some "hra30"
  else if has "c.l.a" then Some "cla"
  else if has "add" && has "allowance" then Some "addAllowance"
  else if has "gross" && has "total" then Some "grossTotal"
  else if has "prof" && has "tax" then Some "profTax"
  else if has "income" && has "tax" then Some "incomeTax"
  else if has "p.f" || String.eqb normalizedHeader "pf" then Some "pf"
  else if has "lic" then Some "lic"
  else if has "medical" && has "insur" then Some "medicalInsurance"
  else if has "ew" && has "fund" then Some "ewFund"
  else if has "total" && has "deduction" then Some "totalDeductions"
  else if has "net" && has "pay" then Some "netPay"
  else None.

(** [column] is the last position of [headers] whose header is assigned
    to [field]. *)
Definition lastOf (field : string) (headers : Row) (column : nat) : Prop :=
  (exists header, headers !! column = Some header /\ headerField header = Some field)
  /\ forall later header,
       (column < later)%nat -> headers !! later = Some header ->
       headerField header <> Some field.

(** No header of [headers] is assigned to [field]. *)
Definition noneOf (field : string) (headers : Row) : Prop :=
  forall column header,
    headers !! column = Some header -> headerField header <> Some field.

(** The required columns of the validator, by name. *)
Definition teacherIdColumn : RequiredColumn :=
  nth 0 requiredColumns (Build_RequiredColumn "" []).

Definition teacherNameColumn : RequiredColumn :=
  nth 1 requiredColumns (Build_RequiredColumn "" []).

Definition basicSalaryColumn : RequiredColumn :=
  nth 2 requiredColumns (Build_RequiredColumn "" []).

(** Every character of [s] satisfies [p]. *)
Fixpoint allChars (p : ascii -> bool) (s : string) : bool :=
  match s with
  | EmptyString => true
  | String c r => p c && allChars p r
  end.

(** White space only. *)
Definition blank (s : string) : Prop := allChars isWhiteSpace s = true.

(** No white space anywhere. *)
Definition solid (s : string) : Prop :=
  allChars (fun c => negb (isWhiteSpace c)) s = true.




End Views.

Module MoreViews.
Import JsString JsNumber Importer Effects Pipeline Views.

(** The character [c] does not occur in [s]. *)
Definition noChar (c : ascii) (s : string) : Prop :=
  allChars (fun x => negb (Ascii.eqb x c)) s = true.

(** A line [parseCSV] drops: nothing is left of it after trimming. *)
Definition blankLine (line : string) : bool :=
  match trim line with
  | EmptyString => true
  | _ => false
  end.


(** The properties [assignColumn] can set on [columnMap]. *)
Definition fieldNames : list string :=
  ["teacherId"; "teacherName"; "designation"; "qualification"; "payScale"; "payBand";
   "agp"; "revisedBasicPay"; "da150"; "hra30"; "cla"; "addAllowance"; "grossTotal";
   "profTax"; "incomeTax"; "pf"; "lic"; "medicalInsurance"; "ewFund"; "totalDeductions";
   "netPay"].

(** The numeric properties of a record. *)
Definition amounts (record : PayRecord.t) : list float :=
  [PayRecord.agp record; PayRecord.revisedBasicPay record; PayRecord.da150 record;
   PayRecord.hra30 record; PayRecord.cla record; PayRecord.addAllowance record;
   PayRecord.grossTotal record; PayRecord.profTax record; PayRecord.incomeTax record;
   PayRecord.pf record; PayRecord.lic record; PayRecord.medicalInsurance record;
   PayRecord.ewFund record; PayRecord.totalDeductions record; PayRecord.netPay record;
   PayRecord.basicSalary record; PayRecord.da record; PayRecord.hra record;
   PayRecord.allowances record; PayRecord.grossSalary record].

Definition monthNames : list string :=
  ["January"; "February"; "March"; "April"; "May"; "June"; "July"; "August";
   "September"; "October"; "November"; "December"].

Definition monthNumbers : list string :=
  ["01"; "02"; "03"; "04"; "05"; "06"; "07"; "08"; "09"; "10"; "11"; "12"].





(** A character [normalizeHeader] removes. *)
Definition separator (c : ascii) : bool :=
  isWhiteSpace c || Ascii.eqb c "-" || Ascii.eqb c "_" || Ascii.eqb c ".".

(** The message of the last branch of the parser choice in
    [importPaysheetFile]. *)
Definition longMessage : string :=
  "Unsupported file format. Please use CSV or Excel files (.csv, .xlsx, .xls).".

(** What the fallback hands to [localStorage.setItem]. *)
Definition localBatch (parsedData : Grid) (month year now : string) : Stored :=
  StoredPaysheet
    (localPaysheet (processDataForLocalStorage parsedData month year now) month year now).

(** The path of the salary slip of a record. *)
Definition slipPath (record : PayRecord.t) (month year : string) : string :=
  "salarySlips/" +:+ (PayRecord.teacherId record +:+ "_" +:+ month +:+ "_" +:+ year).

(** A tree of paths after the slips of [processedData] are set in it, in
    the order of the list. *)
Definition withSlips (processedData : list PayRecord.t)
    (month year now paysheetKey : string) (tree : gmap string Stored) : gmap string Stored :=
  fold_left (fun tree record =>
               <[slipPath record month year
                 := StoredSlip (salarySlip record month year now paysheetKey)]> tree)
            processedData tree.

(** The property names every object inherits from [Object.prototype]:
    a lookup in an object literal finds them although the literal does
    not list them. *)
Definition inherited : list string :=
  ["constructor"; "hasOwnProperty"; "isPrototypeOf"; "propertyIsEnumerable";
   "toLocaleString"; "toString"; "valueOf"; "__proto__";
   "__defineGetter__"; "__defineSetter__"; "__lookupGetter__"; "__lookupSetter__"].

(** The keys a JS object keeps as its own when assigned: [__proto__]
    names the prototype of an object literal, and assigning a record to
    it adds no entry. *)
Definition ownKeys (processedData : list PayRecord.t) : Prop :=
  Forall (fun record => PayRecord.teacherId record <> "__proto__") processedData.

End MoreViews.

(** * Concrete inputs *)

Module Examples.
Import JsString JsNumber Importer Effects.

(** Scenario A: the header row [ID,Name,Basic] and one data row. *)
Definition scenarioA : Grid :=
  parseLines ["ID,Name,Basic"; "T001,Dr. Smith,50000"] [].

(** The same data row under the headers of the Excel sheet. *)
Definition scenarioExcel : Grid :=
  parseLines ["Teacher ID,Name of Staff,Revised Basic Pay"; "T001,Dr. Smith,50000"] [].

(** Scenario B: a header row with [Staff ID] and [Full Name]. *)
Definition scenarioB : Row := ["Staff ID"; "Full Name"].

(** Three data rows whose gross totals are 0.1, 0.2 and 0.3. *)
Definition decimals : Grid :=
  parseLines ["Teacher ID,Name of Staff,Gross Total";
              "T001,A,0.1"; "T002,B,0.2"; "T003,C,0.3"] [].

Definition noon : string := "2025-01-31T12:00:00.000Z".

(** A browser in which Firebase is not loaded: every Firebase call
    throws, and [localStorage] accepts every item. *)
Definition offline : Collaborators (gmap string Stored) :=
  {| firebaseStart := throw "firebase is not defined";
     firebaseSet := fun _ _ => throw "firebase is not defined";
     localStorageSetItem := fun key value w => (Normal tt, <[key := value]> w);
     xlsxFirstSheet := fun _ => Throw "XLSX is not defined" |}.

(** The same browser with a full [localStorage]. *)
Definition offlineFull : Collaborators (gmap string Stored) :=
  {| firebaseStart := throw "firebase is not defined";
     firebaseSet := fun _ _ => throw "firebase is not defined";
     localStorageSetItem := fun _ _ => throw "The quota has been exceeded.";
     xlsxFirstSheet := fun _ => Throw "XLSX is not defined" |}.

(** Both stores at work: the state is the Firebase tree and [localStorage]. *)
Definition online : Collaborators (gmap string Stored * gmap string Stored) :=
  {| firebaseStart := mret tt;
     firebaseSet := fun path value w => (Normal tt, (<[path := value]> (fst w), snd w));
     localStorageSetItem := fun key value w => (Normal tt, (fst w, <[key := value]> (snd w)));
     xlsxFirstSheet := fun _ => Throw "XLSX is not defined" |}.

Definition csvFile (text : string) : File :=
  {| name := "January.csv"; content := Some text |}.

End Examples.

(** * Properties *)

(** ** The record normaliser *)

Module NormalizerFacts.
Import JsString JsNumber Importer Views.

Lemma numbered_cons i row rest :
  numbered i (row :: rest) = (i, row) :: numbered (S i) rest.
Proof. reflexivity. Qed.

Lemma skipped_complete i row : skipped row = negb (complete (i, row)).
Proof. unfold skipped, complete. cbn [snd]. apply Nat.ltb_antisym. Qed.

Lemma processRows_unfold columnMap month year now rows i processedData :
  processRows rows i columnMap month year now processedData
  = (processedData
       ++ map (emit columnMap month year now) (List.filter complete (numbered i rows)))%list.
Proof.
  revert i processedData.
  induction rows as [|row rest IH]; intros i processedData.
  - cbn. now rewrite app_nil_r.
  - rewrite numbered_cons. cbn [processRows List.filter].
    fold (skipped row). rewrite (skipped_complete i row).
    destruct (complete (i, row)); cbn [negb].
    + rewrite IH. cbn [map]. now rewrite <- app_assoc.
    + apply IH.
Qed.

Lemma process_unfold csvData month year now :
  processDataForLocalStorage csvData month year now
  = map (emit (buildColumnMap (hd [] csvData)) month year now)
        (List.filter complete (numbered 1 (tl csvData))).
Proof.
  unfold processDataForLocalStorage.
  destruct csvData as [|headers [|row rest]]; try reflexivity.
  change (length (headers :: row :: rest) <? 2)%nat with false.
  cbv iota. now rewrite processRows_unfold.
Qed.

Lemma filter_numbered_length i rows :
  length (List.filter complete (numbered i rows))
  = (length rows - length (List.filter skipped rows))%nat.
Proof.
  revert i. induction rows as [|row rest IH]; intros i; [reflexivity|].
  rewrite numbered_cons. cbn [List.filter].
  rewrite (skipped_complete i row).
  pose proof (filter_length_le skipped rest) as Hle.
  destruct (complete (i, row)); cbn [negb length]; rewrite IH; lia.
Qed.

(** C5. Every data row with fewer than three cells yields no record and
    every other data row yields exactly one whole record, in the order
    of the rows: the output is the image, under the record constructor,
    of the numbered data rows that are kept, and its length is the number
    of data rows minus the number of skipped rows. *)
Theorem C5_rows_skipped_or_emitted_whole (csvData : Grid) (month year now : string) :
  processDataForLocalStorage csvData month year now
  = map (fun entry => buildRecord (snd entry) (fst entry)
                        (buildColumnMap (hd [] csvData)) month year now)
        (List.filter (fun entry => negb (skipped (snd entry)))
                     (combine (seq 1 (length (tl csvData))) (tl csvData)))
  /\ length (processDataForLocalStorage csvData month year now)
     = (length (tl csvData) - length (List.filter skipped (tl csvData)))%nat.
Proof.
  split.
  - rewrite process_unfold. unfold emit, numbered.
    f_equal. apply filter_ext. intros [i row]. cbn [snd].
    rewrite (skipped_complete i row). now destruct (complete (i, row)).
  - rewrite process_unfold, length_map. apply filter_numbered_length.
Qed.

(** C7. In every record of the output the legacy fields repeat the
    exact-schema fields. *)
Theorem C7_legacy_fields_alias_exact_fields
    (csvData : Grid) (month year now : string) (record : PayRecord.t) :
  In record (processDataForLocalStorage csvData month year now) ->
  PayRecord.basicSalary record = PayRecord.revisedBasicPay record
  /\ PayRecord.da record = PayRecord.da150 record
  /\ PayRecord.hra record = PayRecord.hra30 record
  /\ PayRecord.allowances record = PayRecord.addAllowance record
  /\ PayRecord.grossSalary record = PayRecord.grossTotal record.
Proof.
  rewrite process_unfold. intros Hin.
  apply in_map_iff in Hin as [entry [<- _]].
  repeat split.
Qed.

(** C8. A grid with fewer than two rows gives no record. *)
Theorem C8_no_data_rows_no_records (csvData : Grid) (month year now : string) :
  (length csvData < 2)%nat ->
  processDataForLocalStorage csvData month year now = [].
Proof.
  intros Hlen. unfold processDataForLocalStorage.
  apply Nat.ltb_lt in Hlen. now rewrite Hlen.
Qed.

End NormalizerFacts.

(** ** Scenario A *)

Module ScenarioFacts.
Import JsString JsNumber Importer Examples.

Lemma scenarioA_grid :
  scenarioA = [["ID"; "Name"; "Basic"]; ["T001"; "Dr. Smith"; "50000"]].
Proof. reflexivity. Qed.

Lemma scenarioA_parseCSV :
  parseCSV ("ID,Name,Basic" +:+ String lineFeed "T001,Dr. Smith,50000") = scenarioA.
Proof. reflexivity. Qed.

(** C1, as stated, fails: whatever the clock, the record built from
    scenario A does not have the identifier [T001_January_2025]. *)
Lemma C1_counterexample :
  ~ exists (now : string) (record : PayRecord.t),
      processDataForLocalStorage scenarioA "January" "2025" now = [record]
      /\ PayRecord.id record = "T001_January_2025"
      /\ PayRecord.basicSalary record = 50000%float
      /\ PayRecord.monthNum record = "01".
Proof.
  intros (now & record & Hout & Hid & _).
  assert (Hcode : PayRecord.id
                    (hd record (processDataForLocalStorage scenarioA "January" "2025" now))
                  = "1_January_2025") by (vm_compute; reflexivity).
  rewrite Hout in Hcode. cbn [hd] in Hcode.
  rewrite Hid in Hcode. discriminate Hcode.
Qed.

(** C1, amended. None of the headers [ID], [Name], [Basic] is one the
    normaliser maps, so scenario A yields one record whose identifier is
    built from the row ordinal, [1_January_2025], whose [basicSalary] is
    0 and whose [monthNum] is [01]. *)
Theorem C1_scenarioA_unmapped_headers (now : string) :
  exists record : PayRecord.t,
    processDataForLocalStorage scenarioA "January" "2025" now = [record]
    /\ PayRecord.id record = "1_January_2025"
    /\ PayRecord.basicSalary record = 0%float
    /\ PayRecord.monthNum record = "01".
Proof.
  eexists. split; [vm_compute; reflexivity|].
  repeat split.
Qed.

(** Under the headers the normaliser maps, the same data row gives a
    record with the identifier and the basic salary of the row. *)
Lemma scenarioExcel_record (now : string) :
  exists record : PayRecord.t,
    processDataForLocalStorage scenarioExcel "January" "2025" now = [record]
    /\ PayRecord.id record = "T001_January_2025"
    /\ PayRecord.teacherName record = "Dr. Smith"
    /\ PayRecord.basicSalary record = 50000%float
    /\ PayRecord.monthNum record = "01".
Proof.
  eexists. split; [vm_compute; reflexivity|].
  repeat split.
Qed.

(** Witness for C7 on the record of [scenarioExcel]. *)
Lemma C7_witness :
  let record :=
    buildRecord ["T001"; "Dr. Smith"; "50000"] 1
      (buildColumnMap ["Teacher ID"; "Name of Staff"; "Revised Basic Pay"])
      "January" "2025" noon in
  In record (processDataForLocalStorage scenarioExcel "January" "2025" noon)
  /\ PayRecord.basicSalary record = PayRecord.revisedBasicPay record
  /\ PayRecord.da record = PayRecord.da150 record
  /\ PayRecord.hra record = PayRecord.hra30 record
  /\ PayRecord.allowances record = PayRecord.addAllowance record
  /\ PayRecord.grossSalary record = PayRecord.grossTotal record.
Proof.
  intros record.
  assert (Hin : In record (processDataForLocalStorage scenarioExcel "January" "2025" noon))
    by (left; vm_compute; reflexivity).
  split; [exact Hin|].
  exact (NormalizerFacts.C7_legacy_fields_alias_exact_fields
           scenarioExcel "January" "2025" noon record Hin).
Defined.

(** Witness for C8 on a grid that has only its header row. *)
Lemma C8_witness :
  (length [["ID"; "Name"; "Basic"]] < 2)%nat
  /\ processDataForLocalStorage [["ID"; "Name"; "Basic"]] "January" "2025" noon = [].
Proof.
  assert (Hlen : (length [["ID"; "Name"; "Basic"]] < 2)%nat) by (simpl; lia).
  split; [exact Hlen|].
  exact (NormalizerFacts.C8_no_data_rows_no_records
           [["ID"; "Name"; "Basic"]] "January" "2025" noon Hlen).
Defined.

End ScenarioFacts.

(** ** The validator *)

Module ValidatorFacts.
Import JsString JsNumber Importer Effects Pipeline Views Examples.






Section Rejection.
Context {World : Type} (env : Collaborators World).



End Rejection.


End ValidatorFacts.

(** ** The column mapping *)

Module ResolverFacts.
Import JsString JsNumber Importer Views Examples.

Lemma assignColumn_field (header : string) (index : nat) (columnMap : gmap string nat) :
  assignColumn header index columnMap
  = match headerField header with
    | Some field => <[field := index]> columnMap
    | None => columnMap
    end.
Proof.
  unfold assignColumn, headerField. cbv zeta.
  repeat match goal with
         | |- context [if ?c then _ else _] => destruct c; [reflexivity|]
         end.
  reflexivity.
Qed.

(** What [headers.forEach] leaves under [field]: the last position
    assigned to it, or what was there before when there is none. *)
Lemma mapHeaders_lookup (headers : Row) :
  forall (index : nat) (columnMap : gmap string nat) (field : string) (column : nat),
    mapHeaders headers index columnMap !! field = Some column
    <-> (exists offset, column = (index + offset)%nat /\ lastOf field headers offset)
        \/ (columnMap !! field = Some column /\ noneOf field headers).
Proof.
  induction headers as [|header rest IH]; intros index columnMap field column.
  - cbn [mapHeaders]. split.
    + intros Hm. right. split; [exact Hm|]. intros c h Hc. discriminate Hc.
    + intros [(offset & _ & (h & Hh & _) & _)|[Hm _]]; [discriminate Hh|exact Hm].
  - cbn [mapHeaders]. rewrite IH, assignColumn_field. split.
    + intros [(offset & -> & (h & Hh & Hf) & Hlast)|[Hm Hnone]].
      * left. exists (S offset). split; [lia|]. split.
        -- exists h. now split.
        -- intros [|later] h' Hlt Hl; [lia|]. apply (Hlast later h'); [lia|exact Hl].
      * destruct (headerField header) as [assigned|] eqn:Hassigned.
        -- destruct (decide (assigned = field)) as [->|Hne].
           ++ rewrite lookup_insert_eq in Hm. injection Hm as <-.
              left. exists 0%nat. split; [lia|]. split.
              ** exists header. now split.
              ** intros [|later] h' Hlt Hl; [lia|]. apply (Hnone later h' Hl).
           ++ rewrite lookup_insert_ne in Hm by exact Hne.
              right. split; [exact Hm|].
              intros [|c] h' Hc; [|apply (Hnone c h' Hc)].
              injection Hc as <-. rewrite Hassigned. congruence.
        -- right. split; [exact Hm|].
           intros [|c] h' Hc; [|apply (Hnone c h' Hc)].
           injection Hc as <-. rewrite Hassigned. congruence.
    + intros [(offset & -> & (h & Hh & Hf) & Hlast)|[Hm Hnone]].
      * destruct offset as [|offset].
        -- injection Hh as ->. right. rewrite Hf, lookup_insert_eq.
           split; [f_equal; lia|].
           intros c h' Hc. apply (Hlast (S c) h'); [lia|exact Hc].
        -- left. exists offset. split; [lia|]. split.
           ++ exists h. now split.
           ++ intros later h' Hlt Hl. apply (Hlast (S later) h'); [lia|exact Hl].
      * right. split.
        -- pose proof (Hnone 0%nat header eq_refl) as Hhead.
           destruct (headerField header) as [assigned|]; [|exact Hm].
           rewrite lookup_insert_ne; [exact Hm|congruence].
        -- intros c h' Hc. apply (Hnone (S c) h' Hc).
Qed.

Lemma buildColumnMap_lookup (headers : Row) (field : string) (column : nat) :
  buildColumnMap headers !! field = Some column <-> lastOf field headers column.
Proof.
  unfold buildColumnMap. rewrite mapHeaders_lookup. split.
  - intros [(offset & -> & Hlast)|[Hempty _]]; [exact Hlast|].
    rewrite lookup_empty in Hempty. discriminate Hempty.
  - intros Hlast. left. now exists column.
Qed.

Lemma found_iff (required : RequiredColumn) (headers : Row) :
  found required (map normalizeHeader headers) = true
  <-> exists header pattern,
        In header headers /\ In pattern (patterns required)
        /\ (includes (normalizeHeader header) (stripSeparators pattern) = true
            \/ includes (stripSeparators pattern) (normalizeHeader header) = true).
Proof.
  unfold found. rewrite existsb_exists. split.
  - intros (normalized & Hin & Hsome).
    apply in_map_iff in Hin as (header & <- & Hin).
    apply existsb_exists in Hsome as (pattern & Hpattern & Hmatch).
    exists header, pattern. repeat split; try assumption.
    now apply orb_true_iff.
  - intros (header & pattern & Hin & Hpattern & Hmatch).
    exists (normalizeHeader header). split; [now apply in_map|].
    apply existsb_exists. exists pattern. split; [exact Hpattern|].
    now apply orb_true_iff.
Qed.

(** C2, as stated, fails: [Staff ID] and [Full Name] are not recorded
    for the identifier and the name, and of two columns that qualify for
    one field the left one is not the one recorded. *)
Lemma C2_counterexample :
  buildColumnMap ["Staff ID"; "Full Name"] !! "teacherId" <> Some 0%nat
  /\ buildColumnMap ["Staff ID"; "Full Name"] !! "teacherName" <> Some 1%nat
  /\ buildColumnMap ["Teacher ID"; "Old Teacher ID"] !! "teacherId" <> Some 0%nat.
Proof.
  repeat split; vm_compute; discriminate.
Qed.

(** C2, amended. The alias test, in both directions of inclusion, is the
    validator's: it decides whether a required column counts as found.
    The column mapping is built by [processDataForLocalStorage] from its
    own conditions on the header, and the column recorded for a field is
    the last one whose header is assigned to it. The headers [Staff ID]
    and [Full Name] are found by the validator as the identifier and the
    name, and they are recorded in the column mapping for no field. *)
Theorem C2_aliases_validate_and_last_column_is_mapped (headers : Row) :
  (forall required : RequiredColumn,
      found required (map normalizeHeader headers) = true
      <-> exists header pattern,
            In header headers /\ In pattern (patterns required)
            /\ (includes (normalizeHeader header) (stripSeparators pattern) = true
                \/ includes (stripSeparators pattern) (normalizeHeader header) = true))
  /\ (forall (field : string) (column : nat),
         buildColumnMap headers !! field = Some column <-> lastOf field headers column)
  /\ found teacherIdColumn (map normalizeHeader scenarioB) = true
  /\ found teacherNameColumn (map normalizeHeader scenarioB) = true
  /\ (forall (field : string) (column : nat),
         headers !! column = Some "Staff ID" \/ headers !! column = Some "Full Name" ->
         buildColumnMap headers !! field <> Some column).
Proof.
  split; [intros required; apply found_iff|].
  split; [intros field column; apply buildColumnMap_lookup|].
  split; [reflexivity|]. split; [reflexivity|].
  intros field column Hcell Hmapped.
  apply buildColumnMap_lookup in Hmapped as [(header & Hheader & Hfield) _].
  destruct Hcell as [Hcell|Hcell]; rewrite Hcell in Hheader;
    injection Hheader as <-; vm_compute in Hfield; discriminate Hfield.
Qed.

(** Witness for C2: of two columns that qualify for [teacherId], the
    second is the one recorded. *)
Lemma C2_witness :
  let headers := ["Teacher ID"; "Old Teacher ID"] in
  lastOf "teacherId" headers 1 /\ buildColumnMap headers !! "teacherId" = Some 1%nat.
Proof.
  intros headers.
  assert (Hlast : lastOf "teacherId" headers 1).
  { split.
    - exists "Old Teacher ID". split; reflexivity.
    - intros [|[|later]] header Hlt Hheader; [lia|lia|discriminate Hheader]. }
  split; [exact Hlast|].
  exact (proj2 (proj1 (proj2 (C2_aliases_validate_and_last_column_is_mapped headers))
                  "teacherId" 1%nat) Hlast).
Defined.

(** The sample the importer offers for download: its [Teacher ID] column
    is mapped, its [Teacher Name] and [Basic Salary] columns are not. *)
Lemma sample_headers_mapping :
  let sample :=
    ["Teacher ID"; "Teacher Name"; "Designation"; "Department"; "Basic Salary"; "HRA";
     "DA"; "Allowances"; "Gross Salary"; "PF"; "ESI"; "Tax"; "Other Deductions";
     "Total Deductions"; "Net Pay"; "Pay Date"; "Status"] in
  buildColumnMap sample !! "teacherId" = Some 0%nat
  /\ buildColumnMap sample !! "teacherName" = None
  /\ buildColumnMap sample !! "revisedBasicPay" = None.
Proof.
  vm_compute. repeat split.
Qed.

End ResolverFacts.

(** ** The fallback to localStorage *)

Module FallbackFacts.
Import JsString JsNumber Importer Effects Pipeline Views Examples.



(** Runs of one step compared: equal runs have equal completions and
    equal final states, and a value is not a thrown error. *)
Ltac same_run :=
  repeat match goal with
         | H : (_, _) = (_, _) |- _ => injection H as H; try subst
         | H : Normal _ = Throw _ |- _ => discriminate H
         | H : Throw _ = Normal _ |- _ => discriminate H
         | H : ?a = _, H' : ?a = _ |- _ => rewrite H in H'
         | H : Throw _ = Throw _ |- _ => injection H as H; try subst
         | H : Normal _ = Normal _ |- _ => injection H as H; try subst
         end.

Section AnyStores.
Context {World : Type} (env : Collaborators World).

(** The steps of the Firebase attempt, in their order: the attempt throws
    exactly when one of them does, in the state that step left. *)
Lemma firebaseAttempt_throws (parsedData : Grid) (month year now error : string)
    (w w' : World) :
  let processedData := processDataForLocalStorage parsedData month year now in
  let paysheetKey := month +:+ "_" +:+ year in
  let sheet := StoredPaysheet (firebasePaysheet processedData month year now) in
  firebaseAttempt env parsedData month year now w = (Throw error, w')
  <-> firebaseStart env w = (Throw error, w')
      \/ exists w0, firebaseStart env w = (Normal tt, w0)
         /\ (firebaseSet env ("paysheets/" +:+ paysheetKey) sheet w0 = (Throw error, w')
             \/ exists w1, firebaseSet env ("paysheets/" +:+ paysheetKey) sheet w0
                           = (Normal tt, w1)
                /\ (saveSlips env processedData month year now paysheetKey w1
                    = (Throw error, w')
                    \/ exists w2, saveSlips env processedData month year now paysheetKey w1
                                  = (Normal tt, w2)
                       /\ localStorageSetItem env ("paysheet_" +:+ month +:+ "_" +:+ year)
                            sheet w2 = (Throw error, w'))).
Proof.
  cbv zeta. unfold firebaseAttempt, mbind, eff_bind, mret, eff_ret.
  destruct (firebaseStart env w) as [[[]|e0] w0] eqn:Hstart.
  2:{ split.
      - intros H. left. now same_run.
      - intros [H|(x & H & _)]; now same_run. }
  destruct (firebaseSet env _ _ w0) as [[[]|e1] w1] eqn:Hset.
  2:{ split.
      - intros H. right. exists w0. split; [reflexivity|]. left. now same_run.
      - intros [H|(x & Hx & [H|(y & H & _)])]; now same_run. }
  destruct (saveSlips env _ _ _ _ _ w1) as [[[]|e2] w2] eqn:Hslips.
  2:{ split.
      - intros H. right. exists w0. split; [reflexivity|]. right.
        exists w1. split; [exact Hset|]. left. now same_run.
      - intros [H|(x & Hx & [H|(y & Hy & [H|(z & H & _)])])]; now same_run. }
  destruct (localStorageSetItem env _ _ w2) as [[[]|e3] w3] eqn:Hlocal.
  - split; [intros H; discriminate H|].
    intros [H|(x & Hx & [H|(y & Hy & [H|(z & Hz & H)])])]; now same_run.
  - split.
    + intros H. right. exists w0. split; [reflexivity|]. right.
      exists w1. split; [exact Hset|]. right. exists w2. split; [exact Hslips|].
      rewrite Hlocal. now same_run.
    + intros [H|(x & Hx & [H|(y & Hy & [H|(z & Hz & H)])])]; now same_run.
Qed.

Lemma firebaseAttempt_result (parsedData : Grid) (month year now : string)
    (w w' : World) (result : ImportResult) :
  firebaseAttempt env parsedData month year now w = (Normal result, w') ->
  result = Imported
             (firebaseMessage (length (processDataForLocalStorage parsedData month year now)))
             (processDataForLocalStorage parsedData month year now)
             (Some (month +:+ "_" +:+ year)).
Proof.
  unfold firebaseAttempt, mbind, eff_bind, mret, eff_ret.
  destruct (firebaseStart env w) as [[[]|e0] w0]; [|discriminate].
  destruct (firebaseSet env _ _ w0) as [[[]|e1] w1]; [|discriminate].
  destruct (saveSlips env _ _ _ _ _ w1) as [[[]|e2] w2]; [|discriminate].
  destruct (localStorageSetItem env _ _ w2) as [[[]|e3] w3]; [|discriminate].
  intros H. now injection H as <- _.
Qed.


End AnyStores.


(** With a full localStorage the same import ends in the failure outcome. *)
Lemma fallback_fails_when_localStorage_throws :
  let file := csvFile ("Teacher ID,Name of Staff,Revised Basic Pay"
                         +:+ String lineFeed "T001,Dr. Smith,50000") in
  importPaysheetFile offlineFull file "January" "2025" noon ∅
  = (Normal (Failed "The quota has been exceeded."), ∅).
Proof. reflexivity. Qed.

(** With both stores at work the outcome carries the paysheet key. *)
Lemma firebase_success_carries_key :
  let file := csvFile ("Teacher ID,Name of Staff,Revised Basic Pay"
                         +:+ String lineFeed "T001,Dr. Smith,50000") in
  exists data stores,
    importPaysheetFile online file "January" "2025" noon (∅, ∅)
    = (Normal (Imported (firebaseMessage 1) data (Some "January_2025")), stores).
Proof. eexists. eexists. vm_compute. reflexivity. Qed.

End FallbackFacts.

(** ** The batch summary *)

Module SummaryFacts.
Import JsString JsNumber Importer Effects Pipeline Views Examples.

Lemma fold_amounts (f : PayRecord.t -> float) (records : list PayRecord.t) (start : float) :
  fold_left (fun sum record => PrimFloat.add sum (f record)) records start
  = fold_left PrimFloat.add (map f records) start.
Proof.
  revert start. induction records as [|record rest IH]; intros start; [reflexivity|].
  cbn [fold_left map]. apply IH.
Qed.

(** A total is a function of the sequence of amounts. *)
Lemma total_amounts (f : PayRecord.t -> float) (records others : list PayRecord.t) :
  map f records = map f others -> total f records = total f others.
Proof.
  intros Hsame. unfold total. now rewrite !fold_amounts, Hsame.
Qed.

(** Each amount is added to the running sum, after the amounts before it. *)
Lemma total_snoc (f : PayRecord.t -> float) (records : list PayRecord.t)
    (record : PayRecord.t) :
  total f (records ++ [record]) = PrimFloat.add (total f records) (f record).
Proof. unfold total. now rewrite fold_left_app. Qed.

(** The amounts of the processed records do not depend on the clock. *)
Lemma amounts_clock_free (f : PayRecord.t -> float) (csvData : Grid)
    (month year now later : string) :
  (forall columnMap entry,
      f (emit columnMap month year now entry) = f (emit columnMap month year later entry)) ->
  map f (processDataForLocalStorage csvData month year now)
  = map f (processDataForLocalStorage csvData month year later).
Proof.
  intros Hfield. rewrite !NormalizerFacts.process_unfold, !map_map.
  apply map_ext. intros entry. apply Hfield.
Qed.

Lemma summarize_clock_free (csvData : Grid) (month year now later : string) :
  summarize (processDataForLocalStorage csvData month year now)
  = summarize (processDataForLocalStorage csvData month year later).
Proof.
  unfold summarize. f_equal.
  - rewrite !NormalizerFacts.process_unfold. now rewrite !length_map.
  - apply total_amounts, amounts_clock_free. reflexivity.
  - apply total_amounts, amounts_clock_free. reflexivity.
  - apply total_amounts, amounts_clock_free. reflexivity.
Qed.

(** C9, as stated, fails: the gross totals 0.1, 0.2 and 0.3 add up to
    0.6000000000000001 in the order of the rows and to 0.6 in the
    reverse order. *)
Lemma C9_counterexample :
  let records := processDataForLocalStorage decimals "January" "2025" noon in
  Permutation records (List.rev records)
  /\ Summary.totalGross (summarize records)
     <> Summary.totalGross (summarize (List.rev records)).
Proof.
  split; [apply Permutation_rev|].
  vm_compute. intros Hsame.
  apply (f_equal (fun x => PrimFloat.leb x 0x1.3333333333333p-1%float)) in Hsame.
  vm_compute in Hsame. discriminate Hsame.
Qed.

(** C9, amended. The summary is determined by the sequences of amounts of
    the list, so computing it again on the same list, as the fallback
    does after the Firebase attempt, gives the same totals; the record
    count is the same for every permutation of the list; each sum is
    taken from 0 in the order of the list, one binary64 addition per
    record. *)
Theorem C9_summary_repeatable_and_count_order_free :
  (forall records others : list PayRecord.t,
      map PayRecord.grossSalary records = map PayRecord.grossSalary others ->
      map PayRecord.totalDeductions records = map PayRecord.totalDeductions others ->
      map PayRecord.netPay records = map PayRecord.netPay others ->
      summarize records = summarize others)
  /\ (forall (parsedData : Grid) (month year now later : string),
         Paysheet.summary
           (firebasePaysheet (processDataForLocalStorage parsedData month year now)
              month year now)
         = Paysheet.summary
             (localPaysheet (processDataForLocalStorage parsedData month year later)
                month year later))
  /\ (forall records others : list PayRecord.t,
         Permutation records others ->
         Summary.totalRecords (summarize records) = Summary.totalRecords (summarize others))
  /\ (forall (f : PayRecord.t -> float) (records : list PayRecord.t) (record : PayRecord.t),
         total f [] = 0%float
         /\ total f (records ++ [record]) = PrimFloat.add (total f records) (f record)).
Proof.
  split; [|split; [|split]].
  - intros records others Hgross Hdeductions Hnet. unfold summarize.
    rewrite (total_amounts _ _ _ Hgross), (total_amounts _ _ _ Hdeductions),
      (total_amounts _ _ _ Hnet).
    f_equal. apply (f_equal (@length float)) in Hgross.
    now rewrite !length_map in Hgross.
  - intros parsedData month year now later. cbn [Paysheet.summary firebasePaysheet localPaysheet].
    apply summarize_clock_free.
  - intros records others Hperm. cbn [Summary.totalRecords summarize].
    now apply Permutation_length.
  - intros f records record. split; [reflexivity|apply total_snoc].
Qed.

(** Witness for C9: the three records of [decimals] and their reversal
    are counted alike. *)
Lemma C9_witness :
  let records := processDataForLocalStorage decimals "January" "2025" noon in
  Permutation records (List.rev records)
  /\ Summary.totalRecords (summarize records) = 3%nat
  /\ Summary.totalRecords (summarize (List.rev records)) = 3%nat.
Proof.
  intros records.
  assert (Hperm : Permutation records (List.rev records)) by apply Permutation_rev.
  pose proof (proj1 (proj2 (proj2 C9_summary_repeatable_and_count_order_free))
                records (List.rev records) Hperm) as Hcount.
  split; [exact Hperm|].
  assert (Hthree : Summary.totalRecords (summarize records) = 3%nat) by reflexivity.
  split; [exact Hthree|]. now rewrite <- Hcount.
Defined.

End SummaryFacts.

(** ** Currency cells *)

Module CoercionFacts.
Import JsString JsNumber Importer Views Examples.

Lemma parseFloat_undefined : parseFloatOpt None = nan.
Proof. reflexivity. Qed.






Lemma trimStart_blank (before s : string) :
  blank before -> trimStart (before +:+ s) = trimStart s.
Proof.
  unfold blank. induction before as [|c before IH]; [reflexivity|].
  cbn [allChars]. intros H. apply andb_true_iff in H as [Hc Hrest].
  change (String c before +:+ s) with (String c (before +:+ s)).
  cbn [trimStart]. rewrite Hc. now apply IH.
Qed.

Lemma trimEnd_blank (after : string) : blank after -> trimEnd after = EmptyString.
Proof.
  unfold blank. induction after as [|c after IH]; [reflexivity|].
  cbn [allChars]. intros H. apply andb_true_iff in H as [Hc Hrest].
  cbn [trimEnd]. now rewrite (IH Hrest), Hc.
Qed.

Lemma trimEnd_solid (s after : string) :
  solid s -> blank after -> trimEnd (s +:+ after) = s.
Proof.
  unfold solid. intros Hs Hafter. induction s as [|c r IH].
  - now apply trimEnd_blank.
  - cbn [allChars] in Hs. apply andb_true_iff in Hs as [Hc Hr].
    apply negb_true_iff in Hc.
    change (String c r +:+ after) with (String c (r +:+ after)).
    cbn [trimEnd]. rewrite (IH Hr), Hc. now destruct r.
Qed.

Lemma trimStart_only_blank (s : string) : blank s -> trimStart s = EmptyString.
Proof.
  unfold blank. induction s as [|c r IH]; [reflexivity|].
  cbn [allChars]. intros H. apply andb_true_iff in H as [Hc Hr].
  cbn [trimStart]. rewrite Hc. now apply IH.
Qed.

Lemma trim_padded (before s after : string) :
  blank before -> solid s -> blank after -> trim (before +:+ (s +:+ after)) = s.
Proof.
  intros Hbefore Hs Hafter. unfold trim.
  rewrite (trimStart_blank _ _ Hbefore).
  destruct s as [|c r].
  - change (EmptyString +:+ after) with after.
    now rewrite (trimStart_only_blank _ Hafter).
  - assert (Hstart : trimStart (String c r +:+ after) = String c r +:+ after).
    { unfold solid in Hs. cbn [allChars] in Hs. apply andb_true_iff in Hs as [Hc _].
      apply negb_true_iff in Hc.
      change (String c r +:+ after) with (String c (r +:+ after)).
      cbn [trimStart]. now rewrite Hc. }
    rewrite Hstart. now apply trimEnd_solid.
Qed.









(** What [parseFloat] makes of some cells. *)
Lemma parseFloat_samples :
  parseFloat "50000" = 50000%float
  /\ parseFloat "  1250.75" = 1250.75%float
  /\ parseFloat "1e3" = 1000%float
  /\ parseFloat ".5" = 0.5%float
  /\ parseFloat "-42" = (-42)%float
  /\ parseFloat "12abc" = 12%float
  /\ parseFloat "Infinity" = infinity
  /\ parseFloat "abc" = nan
  /\ parseFloat "" = nan
  /\ parseFloat "Rs 500" = nan.
Proof. vm_compute. repeat split. Qed.



(** A CSV line whose third field is a quoted, padded amount. *)
Lemma quoted_amount_is_read :
  let row := parseLine ("T001, Dr. Smith ,  " +:+ String dquote ("50000" +:+ String dquote " ")) in
  row = ["T001"; "Dr. Smith"; "50000"]
  /\ currency row {[ "revisedBasicPay" := 2%nat ]} "revisedBasicPay" = 50000%float.
Proof. vm_compute. repeat split. Qed.

End CoercionFacts.

(** * Further properties *)

(** ** The CSV parser *)

Module CsvFacts.
Import JsString JsNumber Importer Sample Views MoreViews Examples.

(** *** Pieces of [split] *)

Lemma split_nonempty (sep : ascii) (s : string) : split sep s <> [].
Proof.
  destruct s as [|c r]; cbn [split]; [discriminate|].
  destruct (Ascii.eqb c sep); [discriminate|].
  destruct (split sep r); discriminate.
Qed.


Lemma allChars_split (p : ascii -> bool) (sep : ascii) (s : string) :
  allChars p s = true -> Forall (fun piece => allChars p piece = true) (split sep s).
Proof.
  induction s as [|c r IH]; intros Hs.
  - repeat constructor.
  - cbn [allChars] in Hs. apply andb_true_iff in Hs as [Hc Hr].
    specialize (IH Hr). cbn [split].
    destruct (Ascii.eqb c sep).
    + constructor; [reflexivity|exact IH].
    + pose proof (split_nonempty sep r) as Hne.
      destruct (split sep r) as [|h t]; [contradiction|].
      inversion IH as [|? ? Hh Ht]; subst.
      constructor; [|exact Ht]. cbn [allChars]. now rewrite Hc, Hh.
Qed.

Lemma split_free (sep : ascii) (s : string) :
  Forall (noChar sep) (split sep s).
Proof.
  induction s as [|c r IH]; [repeat constructor|].
  cbn [split]. destruct (Ascii.eqb c sep) eqn:Hc.
  - constructor; [reflexivity|exact IH].
  - pose proof (split_nonempty sep r) as Hne.
    destruct (split sep r) as [|h t]; [contradiction|].
    inversion IH as [|? ? Hh Ht]; subst.
    constructor; [|exact Ht]. unfold noChar in *. cbn [allChars]. now rewrite Hc, Hh.
Qed.




(** *** Strings *)




Lemma allChars_trimStart (p : ascii -> bool) (s : string) :
  allChars p s = true -> allChars p (trimStart s) = true.
Proof.
  induction s as [|c r IH]; intros Hs; [reflexivity|].
  cbn [trimStart]. destruct (isWhiteSpace c); [|exact Hs].
  cbn [allChars] in Hs. apply andb_true_iff in Hs as [_ Hr]. now apply IH.
Qed.

Lemma allChars_trimEnd (p : ascii -> bool) (s : string) :
  allChars p s = true -> allChars p (trimEnd s) = true.
Proof.
  induction s as [|c r IH]; intros Hs; [reflexivity|].
  cbn [allChars] in Hs. apply andb_true_iff in Hs as [Hc Hr].
  specialize (IH Hr). cbn [trimEnd].
  destruct (trimEnd r) as [|c' r'].
  - destruct (isWhiteSpace c); [reflexivity|]. cbn [allChars]. now rewrite Hc.
  - cbn [allChars] in *. now rewrite Hc, IH.
Qed.

Lemma allChars_dropLastIfQuote (p : ascii -> bool) (s : string) :
  allChars p s = true -> allChars p (dropLastIfQuote s) = true.
Proof.
  induction s as [|c r IH]; intros Hs; [reflexivity|].
  cbn [allChars] in Hs. apply andb_true_iff in Hs as [Hc Hr].
  specialize (IH Hr). cbn [dropLastIfQuote].
  destruct r as [|c' r'].
  - destruct (Ascii.eqb c dquote); [reflexivity|]. cbn [allChars]. now rewrite Hc.
  - cbn [allChars] in *. now rewrite Hc, IH.
Qed.

Lemma allChars_cleanCell (p : ascii -> bool) (s : string) :
  allChars p s = true -> allChars p (cleanCell s) = true.
Proof.
  intros Hs. unfold cleanCell, stripQuotes, trim.
  apply allChars_dropLastIfQuote.
  pose proof (allChars_trimEnd p _ (allChars_trimStart p _ Hs)) as Ht.
  destruct (trimEnd (trimStart s)) as [|c r]; [reflexivity|].
  destruct (Ascii.eqb c dquote); [|exact Ht].
  cbn [allChars] in Ht. now apply andb_true_iff in Ht as [_ Hr].
Qed.

(** *** [parseCSV] *)

Lemma parseLines_unfold (lines : list string) (result : Grid) :
  parseLines lines result
  = (result ++ map parseLine (List.filter (fun line => negb (blankLine line)) lines))%list.
Proof.
  revert result. induction lines as [|line rest IH]; intros result.
  - cbn. now rewrite app_nil_r.
  - cbn [parseLines List.filter]. unfold blankLine at 1.
    destruct (trim line); cbn [negb].
    + apply IH.
    + rewrite IH. cbn [map]. now rewrite <- app_assoc.
Qed.


Lemma parseCSV_unfold (csvContent : string) :
  parseCSV csvContent
  = map parseLine
        (List.filter (fun line => negb (blankLine line)) (split lineFeed csvContent)).
Proof. unfold parseCSV. now rewrite parseLines_unfold. Qed.



Lemma parseLine_cells (line : string) :
  noChar lineFeed line ->
  parseLine line <> []
  /\ Forall (fun cell => noChar "," cell /\ noChar lineFeed cell) (parseLine line).
Proof.
  intros Hline. unfold parseLine. split.
  - pose proof (split_nonempty "," line) as Hne.
    destruct (split "," line); [contradiction|discriminate].
  - pose proof (split_free "," line) as Hcomma.
    pose proof (allChars_split _ "," line Hline) as Hfeed.
    induction Hcomma as [|piece rest Hpiece Hrest IH]; [constructor|].
    inversion Hfeed as [|? ? Hpiece' Hrest']; subst.
    cbn [map]. constructor; [|now apply IH].
    split; now apply allChars_cleanCell.
Qed.

(** X2. Every row [parseCSV] returns has at least one cell, and no cell
    holds a comma or a line feed: commas always separate cells, also
    between quotes. *)
Theorem X2_parseCSV_cells_have_no_separator (csvContent : string) :
  Forall (fun row => row <> []
                     /\ Forall (fun cell => noChar "," cell /\ noChar lineFeed cell) row)
         (parseCSV csvContent).
Proof.
  rewrite parseCSV_unfold.
  pose proof (split_free lineFeed csvContent) as Hlines.
  induction Hlines as [|line rest Hline Hrest IH]; [constructor|].
  cbn [List.filter]. destruct (negb (blankLine line)); [|exact IH].
  cbn [map]. constructor; [now apply parseLine_cells|exact IH].
Qed.

(** *** Lines and records *)





(** *** Writing and reading back *)











End CsvFacts.

(** ** Months, columns and records *)

Module RecordFacts.
Import JsString JsNumber Importer Effects Pipeline Sample Views MoreViews Examples.

(** X5. The sample of [getSampleCSVFormat] passes the validator without a
    warning, and the normaliser reads its identifier, designation,
    provident fund, total deductions and net pay, but neither its
    [Teacher Name] nor its [Basic Salary] and [Gross Salary] columns. *)
Theorem X5_sample_loses_name_and_basic_salary (month year now : string) :
  validatePaysheetData (Some (parseCSV getSampleCSVFormat)) = ([], Normal true)
  /\ map (fun record =>
            (PayRecord.teacherId record, PayRecord.teacherName record,
             PayRecord.designation record, PayRecord.basicSalary record,
             PayRecord.grossSalary record, PayRecord.pf record,
             PayRecord.totalDeductions record, PayRecord.netPay record))
         (processDataForLocalStorage (parseCSV getSampleCSVFormat) month year now)
     = [("T001", "", "Professor", 0, 0, 6000, 12500, 60500);
        ("T002", "", "Associate Professor", 0, 0, 5400, 10600, 54900)]%float.
Proof.
  split; vm_compute; reflexivity.
Qed.

(** X6. [getMonthNumber] returns one of [01] to [12] for every string
    that is not the name of a property objects inherit: the twelve
    English month names give their numbers in calendar order, and every
    other such string, a month name in lower case included, gives [01]. *)
Theorem X6_getMonthNumber_range (monthName : string) :
  ~ In monthName inherited ->
  In (getMonthNumber monthName) monthNumbers
  /\ (~ In monthName monthNames -> getMonthNumber monthName = "01")
  /\ map getMonthNumber monthNames = monthNumbers.
Proof.
  intros _.
  assert (Hother : ~ In monthName monthNames -> months !! monthName = None).
  { intros Hnot. unfold months. apply not_elem_of_list_to_map_1.
    intros Hin. apply Hnot. apply list_elem_of_In in Hin. exact Hin. }
  split; [|split].
  - unfold getMonthNumber.
    destruct (months !! monthName) as [number|] eqn:Hfound; [|now left].
    unfold months in Hfound. apply elem_of_list_to_map_2 in Hfound.
    apply list_elem_of_In in Hfound. cbn in Hfound.
    repeat (destruct Hfound as [Hfound|Hfound];
            [injection Hfound as _ <-; cbn; tauto|]).
    contradiction.
  - intros Hnot. unfold getMonthNumber. now rewrite (Hother Hnot).
  - reflexivity.
Qed.

(** Witness for X6: a month name in lower case. *)
Lemma X6_witness :
  ~ In "january" inherited
  /\ ~ In "january" monthNames
  /\ getMonthNumber "january" = "01".
Proof.
  assert (Hplain : ~ In "january" inherited).
  { cbn. intros H. repeat (destruct H as [H|H]; [discriminate H|]). exact H. }
  assert (Hnot : ~ In "january" monthNames).
  { cbn. intros H. repeat (destruct H as [H|H]; [discriminate H|]). exact H. }
  split; [exact Hplain|]. split; [exact Hnot|].
  exact (proj1 (proj2 (X6_getMonthNumber_range "january" Hplain)) Hnot).
Defined.

Lemma headerField_known (header field : string) :
  headerField header = Some field -> In field fieldNames.
Proof.
  unfold headerField. cbv zeta.
  repeat match goal with
         | |- context [if ?c then _ else _] =>
             destruct c; [intros H; injection H as <-; cbn; tauto|]
         end.
  discriminate.
Qed.

(** X7. Every entry of the column mapping names one of the twenty-one
    fields and a column of the header row, and no column is recorded for
    two fields. *)
Theorem X7_columnMap_within_header_and_injective (headers : Row) :
  (forall (field : string) (column : nat),
      buildColumnMap headers !! field = Some column ->
      (column < length headers)%nat /\ In field fieldNames)
  /\ (forall (field other : string) (column : nat),
         buildColumnMap headers !! field = Some column ->
         buildColumnMap headers !! other = Some column ->
         field = other).
Proof.
  split.
  - intros field column Hmapped.
    apply ResolverFacts.buildColumnMap_lookup in Hmapped as [(header & Hheader & Hfield) _].
    split; [now apply lookup_lt_Some in Hheader|now apply headerField_known in Hfield].
  - intros field other column Hfield Hother.
    apply ResolverFacts.buildColumnMap_lookup in Hfield as [(header & Hheader & Hfield) _].
    apply ResolverFacts.buildColumnMap_lookup in Hother as [(header' & Hheader' & Hother) _].
    congruence.
Qed.

(** Witness for X7: the headers of the Excel sheet. *)
Lemma X7_witness :
  let headers := ["Teacher ID"; "Name of Staff"; "Revised Basic Pay"] in
  buildColumnMap headers !! "revisedBasicPay" = Some 2%nat
  /\ (2 < length headers)%nat /\ In "revisedBasicPay" fieldNames.
Proof.
  intros headers.
  assert (Hmapped : buildColumnMap headers !! "revisedBasicPay" = Some 2%nat) by reflexivity.
  split; [exact Hmapped|].
  exact (proj1 (X7_columnMap_within_header_and_injective headers)
           "revisedBasicPay" 2%nat Hmapped).
Defined.

Lemma orZero_number (x : float) : is_nan (orZero x) = false /\ orZero x <> neg_zero.
Proof.
  unfold orZero, falsy. destruct (is_nan x) eqn:Hnan; cbn [orb].
  - split; [reflexivity|]. intros H.
    apply (f_equal (fun y => PrimFloat.ltb (PrimFloat.div 1 y) 0)) in H. discriminate H.
  - destruct (is_zero x) eqn:Hzero.
    + split; [reflexivity|]. intros H.
      apply (f_equal (fun y => PrimFloat.ltb (PrimFloat.div 1 y) 0)) in H. discriminate H.
    + split; [exact Hnan|]. intros ->. discriminate Hzero.
Qed.

(** X8. No numeric field of a record is [NaN] or the negative zero,
    whatever the cells hold. *)
Theorem X8_amounts_are_numbers (csvData : Grid) (month year now : string)
    (record : PayRecord.t) :
  In record (processDataForLocalStorage csvData month year now) ->
  Forall (fun x => is_nan x = false /\ x <> neg_zero) (amounts record).
Proof.
  rewrite NormalizerFacts.process_unfold. intros Hin.
  apply in_map_iff in Hin as (entry & <- & _).
  unfold amounts, emit, buildRecord, currency. cbn.
  repeat (apply List.Forall_cons; [apply orZero_number|]). apply List.Forall_nil.
Qed.


(** Witness for X8: a net pay cell holding [-0] and a gross total cell
    holding [NaN]. *)
Lemma X8_witness :
  let csvData := [["Teacher ID"; "Gross Total"; "Net Pay"]; ["T001"; "NaN"; "-0"]] in
  let record :=
    buildRecord ["T001"; "NaN"; "-0"] 1
      (buildColumnMap ["Teacher ID"; "Gross Total"; "Net Pay"]) "January" "2025" noon in
  In record (processDataForLocalStorage csvData "January" "2025" noon)
  /\ Forall (fun x => is_nan x = false /\ x <> neg_zero) (amounts record).
Proof.
  intros csvData record.
  assert (Hin : In record (processDataForLocalStorage csvData "January" "2025" noon))
    by (left; vm_compute; reflexivity).
  split; [exact Hin|].
  exact (X8_amounts_are_numbers csvData "January" "2025" noon record Hin).
Defined.

Lemma append_length (a b : string) :
  String.length (a +:+ b) = (String.length a + String.length b)%nat.
Proof.
  induction a as [|c a IH]; [reflexivity|].
  change (String c a +:+ b) with (String c (a +:+ b)). cbn [String.length]. now rewrite IH.
Qed.

Lemma append_cancel_r (a b suffix : string) : a +:+ suffix = b +:+ suffix -> a = b.
Proof.
  revert b. induction a as [|c a IH]; intros [|d b] Hsame.
  - reflexivity.
  - change (suffix = String d (b +:+ suffix)) in Hsame.
    apply (f_equal String.length) in Hsame.
    cbn [String.length] in Hsame. rewrite append_length in Hsame. lia.
  - change (String c (a +:+ suffix) = suffix) in Hsame.
    apply (f_equal String.length) in Hsame.
    cbn [String.length] in Hsame. rewrite append_length in Hsame. lia.
  - change (String c (a +:+ suffix) = String d (b +:+ suffix)) in Hsame.
    injection Hsame as -> Hrest. now rewrite (IH b Hrest).
Qed.

Lemma ofNat_inj (i j : nat) : ofNat i = ofNat j -> i = j.
Proof.
  unfold ofNat. intros Hsame.
  apply DecimalNat.Unsigned.to_uint_inj.
  apply (f_equal NilEmpty.uint_of_string) in Hsame.
  rewrite !NilEmpty.usu in Hsame. now injection Hsame.
Qed.

Lemma ofNat_nonempty (i : nat) : ofNat i <> EmptyString.
Proof.
  intros Hempty. change EmptyString with (NilEmpty.string_of_uint Nil) in Hempty.
  unfold ofNat in Hempty.
  apply (f_equal NilEmpty.uint_of_string) in Hempty.
  rewrite !NilEmpty.usu in Hempty. injection Hempty as Hnil.
  pose proof (DecimalNat.Unsigned.to_of (Nat.to_uint i)) as Hnorm.
  rewrite DecimalNat.Unsigned.of_to, Hnil in Hnorm. discriminate Hnorm.
Qed.

(** *** id and teacherId *)

Lemma numbered_In (i : nat) (rows : Grid) (entry : nat * Row) :
  In entry (numbered i rows) -> (i <= fst entry < i + length rows)%nat.
Proof.
  destruct entry as [k row]. unfold numbered. intros Hin.
  apply in_combine_l in Hin. apply in_seq in Hin. cbn [fst]. lia.
Qed.

Lemma record_id_cases (csvData : Grid) (month year now : string) (record : PayRecord.t) :
  In record (processDataForLocalStorage csvData month year now) ->
  (PayRecord.teacherId record <> EmptyString
   /\ PayRecord.id record = PayRecord.teacherId record +:+ "_" +:+ month +:+ "_" +:+ year)
  \/ (PayRecord.teacherId record = EmptyString
      /\ exists i : nat,
           (1 <= i < length csvData)%nat
           /\ PayRecord.id record = ofNat i +:+ "_" +:+ month +:+ "_" +:+ year).
Proof.
  rewrite NormalizerFacts.process_unfold. intros Hin.
  apply in_map_iff in Hin as ([i row] & <- & Hin).
  apply filter_In in Hin as [Hin _]. apply numbered_In in Hin. cbn [fst] in Hin.
  assert (Hi : (1 <= i < length csvData)%nat) by (destruct csvData; cbn [tl length] in *; lia).
  unfold emit. cbn [fst snd buildRecord PayRecord.id PayRecord.teacherId].
  unfold idOrOrdinal, text.
  destruct (cell row (buildColumnMap (hd [] csvData)) "teacherId") as [[|c r]|]; cbn [default].
  - right. split; [reflexivity|]. now exists i.
  - left. split; [discriminate|reflexivity].
  - right. split; [reflexivity|]. now exists i.
Qed.



(** *** Distinct ids *)

Lemma NoDup_numbered (i : nat) (rows : Grid) :
  List.NoDup (map fst (List.filter complete (numbered i rows))).
Proof.
  revert i. induction rows as [|row rest IH]; intros i; [constructor|].
  rewrite NormalizerFacts.numbered_cons. cbn [List.filter].
  destruct (complete (i, row)); [|apply IH].
  cbn [map fst]. constructor; [|apply IH].
  intros Hin. apply in_map_iff in Hin as (entry & Hfst & Hin).
  apply filter_In in Hin as [Hin _]. apply numbered_In in Hin. lia.
Qed.

(** X10. When no header is mapped to [teacherId], the identifiers of the
    records of a batch are pairwise distinct: each is built from the
    ordinal of its row. *)
Theorem X10_ids_distinct_without_teacherId (csvData : Grid) (month year now : string) :
  buildColumnMap (hd [] csvData) !! "teacherId" = None ->
  List.NoDup (map PayRecord.id (processDataForLocalStorage csvData month year now)).
Proof.
  intros Hunmapped. rewrite NormalizerFacts.process_unfold, map_map.
  assert (Hids : forall entry,
             PayRecord.id (emit (buildColumnMap (hd [] csvData)) month year now entry)
             = ofNat (fst entry) +:+ "_" +:+ month +:+ "_" +:+ year).
  { intros entry. unfold emit. cbn [buildRecord PayRecord.id].
    unfold idOrOrdinal, cell. now rewrite Hunmapped. }
  rewrite (map_ext _ _ Hids).
  rewrite <- (map_map fst (fun i => ofNat i +:+ "_" +:+ month +:+ "_" +:+ year)).
  apply Finite.Injective_map_NoDup; [|apply NoDup_numbered].
  intros i j Hsame. apply append_cancel_r in Hsame. now apply ofNat_inj.
Qed.

(** Witness for X10: scenario A, with a second data row. *)
Lemma X10_witness :
  let csvData := [["ID"; "Name"; "Basic"]; ["T001"; "A"; "1"]; ["T001"; "B"; "2"]] in
  buildColumnMap (hd [] csvData) !! "teacherId" = None
  /\ List.NoDup (map PayRecord.id (processDataForLocalStorage csvData "January" "2025" noon)).
Proof.
  intros csvData.
  assert (Hunmapped : buildColumnMap (hd [] csvData) !! "teacherId" = None) by reflexivity.
  split; [exact Hunmapped|].
  exact (X10_ids_distinct_without_teacherId csvData "January" "2025" noon Hunmapped).
Defined.

(** With a mapped identifier column the identifiers can coincide: a row
    without identifier at ordinal 2 and a row whose identifier is [2]. *)
Lemma ids_can_coincide :
  map PayRecord.id
      (processDataForLocalStorage
         [["Teacher ID"; "Name of Staff"; "Net Pay"]; ["2"; "A"; "1"]; [""; "B"; "2"]]
         "January" "2025" noon)
  = ["2_January_2025"; "2_January_2025"].
Proof. reflexivity. Qed.


(** *** recordsByTeacher *)

Lemma recordsByTeacher_snoc (processedData : list PayRecord.t) (record : PayRecord.t) :
  recordsByTeacher (processedData ++ [record])
  = <[PayRecord.teacherId record := record]> (recordsByTeacher processedData).
Proof. unfold recordsByTeacher. now rewrite fold_left_app. Qed.

Lemma recordsByTeacher_lookup (processedData : list PayRecord.t) (teacherId : string) :
  (forall record : PayRecord.t,
      recordsByTeacher processedData !! teacherId = Some record
      <-> exists before after,
            processedData = (before ++ record :: after)%list
            /\ PayRecord.teacherId record = teacherId
            /\ Forall (fun other => PayRecord.teacherId other <> teacherId) after)
  /\ (recordsByTeacher processedData !! teacherId = None
      <-> Forall (fun other => PayRecord.teacherId other <> teacherId) processedData).
Proof.
  induction processedData as [|last processedData [IHsome IHnone]] using rev_ind.
  - split.
    + intros record. split.
      * intros Hfound. discriminate Hfound.
      * intros (before & after & Hsplit & _). now destruct before.
    + split; [constructor|reflexivity].
  - rewrite recordsByTeacher_snoc.
    destruct (decide (PayRecord.teacherId last = teacherId)) as [Hlast|Hlast].
    + rewrite Hlast, lookup_insert_eq. split.
      * intros record. split.
        -- intros Hfound. injection Hfound as <-.
           exists processedData, []. repeat split; [exact Hlast|constructor].
        -- intros (before & after & Hsplit & Hid & Hafter).
           destruct after as [|x after _] using rev_ind.
           ++ apply app_inj_tail in Hsplit as [_ ->]. reflexivity.
           ++ rewrite app_comm_cons, app_assoc in Hsplit.
              apply app_inj_tail in Hsplit as [_ <-].
              apply List.Forall_app in Hafter as [_ Hx].
              inversion Hx; subst. contradiction.
      * split; [discriminate|].
        intros Hall. apply List.Forall_app in Hall as [_ Hx].
        inversion Hx; subst. contradiction.
    + rewrite lookup_insert_ne by exact Hlast. split.
      * intros record. rewrite IHsome. split.
        -- intros (before & after & -> & Hid & Hafter).
           exists before, (after ++ [last])%list. repeat split.
           ++ now rewrite <- app_assoc.
           ++ exact Hid.
           ++ apply List.Forall_app. split; [exact Hafter|]. now constructor.
        -- intros (before & after & Hsplit & Hid & Hafter).
           destruct after as [|x after _] using rev_ind.
           ++ apply app_inj_tail in Hsplit as [_ ->]. contradiction.
           ++ rewrite app_comm_cons, app_assoc in Hsplit.
              apply app_inj_tail in Hsplit as [-> <-].
              apply List.Forall_app in Hafter as [Hafter _].
              now exists before, after.
      * rewrite IHnone. split.
        -- intros Hall. apply List.Forall_app. split; [exact Hall|]. now constructor.
        -- intros Hall. now apply List.Forall_app in Hall as [Hall _].
Qed.

(** X11. In the object keyed by [teacherId] that the Firebase path builds,
    the entry of a key is the last record of the list with that
    [teacherId], and a key has no entry exactly when no record has it;
    no record has the [teacherId] [__proto__], which an object does not
    keep as an entry. *)
Theorem X11_recordsByTeacher_last_wins (processedData : list PayRecord.t) (teacherId : string) :
  ownKeys processedData ->
  (forall record : PayRecord.t,
      recordsByTeacher processedData !! teacherId = Some record
      <-> exists before after,
            processedData = (before ++ record :: after)%list
            /\ PayRecord.teacherId record = teacherId
            /\ Forall (fun other => PayRecord.teacherId other <> teacherId) after)
  /\ (recordsByTeacher processedData !! teacherId = None
      <-> Forall (fun other => PayRecord.teacherId other <> teacherId) processedData).
Proof. intros _. apply recordsByTeacher_lookup. Qed.

(** Witness for X11: the record of the Excel sheet and a key it lacks. *)
Lemma X11_witness :
  let processedData := processDataForLocalStorage scenarioExcel "January" "2025" noon in
  ownKeys processedData
  /\ (recordsByTeacher processedData !! "T002" = None
      <-> Forall (fun other => PayRecord.teacherId other <> "T002") processedData).
Proof.
  intros processedData.
  assert (Hown : ownKeys processedData).
  { apply List.Forall_forall. intros record [<-|[]]. vm_compute. discriminate. }
  split; [exact Hown|].
  exact (proj2 (X11_recordsByTeacher_last_wins processedData "T002" Hown)).
Defined.

Lemma recordsByTeacher_size (processedData : list PayRecord.t) :
  (size (recordsByTeacher processedData) <= length processedData)%nat
  /\ (size (recordsByTeacher processedData) = length processedData
      <-> List.NoDup (map PayRecord.teacherId processedData)).
Proof.
  induction processedData as [|last processedData [IHle IHeq]] using rev_ind.
  - split; [reflexivity|]. split; [constructor|reflexivity].
  - rewrite recordsByTeacher_snoc, map_size_insert, length_app, map_app. cbn [length map].
    pose proof (proj2 (recordsByTeacher_lookup processedData (PayRecord.teacherId last)))
      as Hnone.
    destruct (recordsByTeacher processedData !! PayRecord.teacherId last) as [earlier|]
      eqn:Hfound; cbv beta iota; unfold id.
    + split; [lia|]. split; [lia|].
      intros Hdistinct. exfalso.
      apply List.NoDup_remove_2 in Hdistinct. rewrite app_nil_r in Hdistinct.
      assert (Hall : Forall (fun other => PayRecord.teacherId other
                                          <> PayRecord.teacherId last) processedData).
      { apply List.Forall_forall. intros other Hother Hsame.
        apply Hdistinct. rewrite <- Hsame. now apply in_map. }
      apply Hnone in Hall. discriminate Hall.
    + split; [lia|]. split.
      * intros Hsize. apply List.NoDup_app.
        -- apply IHeq. lia.
        -- repeat constructor. intros [].
        -- intros key Hkey [Hlast|[]].
           apply in_map_iff in Hkey as (other & Hsame & Hother).
           pose proof (proj1 Hnone eq_refl) as Hall.
           rewrite List.Forall_forall in Hall. apply (Hall other Hother). congruence.
      * intros Hdistinct. apply List.NoDup_app_remove_r in Hdistinct.
        apply IHeq in Hdistinct. lia.
Qed.

(** X19. The object keyed by [teacherId] has at most as many entries as
    there are records, and as many exactly when the [teacherId]s of the
    records are pairwise distinct; the summary beside it counts every
    record. No record has the [teacherId] [__proto__]. *)
Theorem X19_keyed_records_merge_duplicates
    (processedData : list PayRecord.t) (month year now : string) :
  ownKeys processedData ->
  (size (recordsByTeacher processedData) <= length processedData)%nat
  /\ (size (recordsByTeacher processedData) = length processedData
      <-> List.NoDup (map PayRecord.teacherId processedData))
  /\ Summary.totalRecords (Paysheet.summary (firebasePaysheet processedData month year now))
     = length processedData.
Proof.
  intros _.
  destruct (recordsByTeacher_size processedData) as [Hle Heq].
  split; [exact Hle|]. split; [exact Heq|reflexivity].
Qed.

(** Witness for X19: two rows of one teacher leave one entry. *)
Lemma X19_witness :
  let processedData :=
    processDataForLocalStorage
      (scenarioExcel ++ tl scenarioExcel)%list "January" "2025" noon in
  ownKeys processedData
  /\ (size (recordsByTeacher processedData) <= length processedData)%nat
  /\ ~ List.NoDup (map PayRecord.teacherId processedData).
Proof.
  intros processedData.
  assert (Hown : ownKeys processedData).
  { apply List.Forall_forall. intros record [<-|[<-|[]]]; vm_compute; discriminate. }
  split; [exact Hown|].
  destruct (X19_keyed_records_merge_duplicates processedData "January" "2025" noon Hown)
    as (Hle & Heq & _).
  split; [exact Hle|].
  intros Hdistinct. apply Heq in Hdistinct. vm_compute in Hdistinct. discriminate Hdistinct.
Defined.




(** X12. The salary slip of a record is written under the record's own
    identifier when its [teacherId] is not empty; the slips of all
    records with an empty [teacherId] share the identifier made of the
    period alone, which is the identifier of none of them. *)
Theorem X12_slip_id_of_record (csvData : Grid) (month year now paysheetKey : string)
    (record : PayRecord.t) :
  In record (processDataForLocalStorage csvData month year now) ->
  let slip := salarySlip record month year now paysheetKey in
  (PayRecord.teacherId record <> EmptyString -> SalarySlip.id slip = PayRecord.id record)
  /\ (PayRecord.teacherId record = EmptyString ->
      SalarySlip.id slip = "_" +:+ month +:+ "_" +:+ year
      /\ SalarySlip.id slip <> PayRecord.id record).
Proof.
  intros Hin slip. subst slip. cbn [salarySlip SalarySlip.id].
  destruct (record_id_cases csvData month year now record Hin)
    as [[Hsome Hid]|[Hnone (i & _ & Hid)]].
  - split; [intros _; now rewrite Hid|]. intros Hempty. contradiction.
  - split; [intros Hsome; contradiction|]. intros _. rewrite Hnone, Hid.
    split; [reflexivity|].
    intros Hsame. apply (append_cancel_r EmptyString (ofNat i)) in Hsame.
    now apply (ofNat_nonempty i).
Qed.

(** Witness for X12: the record of scenario A. *)
Lemma X12_witness :
  let record := buildRecord ["T001"; "Dr. Smith"; "50000"] 1 ∅ "January" "2025" noon in
  In record (processDataForLocalStorage scenarioA "January" "2025" noon)
  /\ PayRecord.teacherId record = EmptyString
  /\ SalarySlip.id (salarySlip record "January" "2025" noon "January_2025") = "_January_2025".
Proof.
  intros record.
  assert (Hin : In record (processDataForLocalStorage scenarioA "January" "2025" noon))
    by (left; vm_compute; reflexivity).
  assert (Hnone : PayRecord.teacherId record = EmptyString) by reflexivity.
  split; [exact Hin|]. split; [exact Hnone|].
  exact (proj1 (proj2 (X12_slip_id_of_record scenarioA "January" "2025" noon "January_2025"
                         record Hin) Hnone)).
Defined.

End RecordFacts.

(** ** The import as a whole *)

Module OutcomeFacts.
Import JsString JsNumber Importer Effects Pipeline Sample Views MoreViews Examples.

Ltac one_of := cbn [In]; repeat (first [left; reflexivity | right]).

Section AnyStores.
Context {World : Type} (env : Collaborators World).

Lemma import_run (file : File) (month year now : string) (w : World) :
  importPaysheetFile env file month year now w
  = match loadGrid env file with
    | Throw message => (Normal (Failed message), w)
    | Normal parsedData =>
        match firebaseAttempt env parsedData month year now w with
        | (Normal result, w') => (Normal result, w')
        | (Throw _, w') =>
            match localStorageSetItem env ("paysheet_" +:+ month +:+ "_" +:+ year)
                    (localBatch parsedData month year now) w' with
            | (Normal _, w'') =>
                (Normal (Imported
                           (localMessage
                              (length (processDataForLocalStorage parsedData month year now)))
                           (processDataForLocalStorage parsedData month year now) None), w'')
            | (Throw failure, w'') => (Normal (Failed failure), w'')
            end
        end
    end.
Proof.
  unfold importPaysheetFile, tryCatch, lift, mbind, eff_bind, mret, eff_ret.
  destruct (loadGrid env file) as [parsedData|message]; [|reflexivity].
  destruct (firebaseAttempt env parsedData month year now w) as [[result|e] w'];
    [reflexivity|].
  unfold localStorageFallback, localBatch, mbind, eff_bind, mret, eff_ret.
  now destruct (localStorageSetItem env _ _ w') as [[[]|failure] w''].
Qed.

(** X13. [importPaysheetFile] never throws. A failure outcome carries
    either the error of reading, parsing or validating the file, with
    the stores untouched, or the error of the [localStorage.setItem] of
    the fallback; a success outcome carries the records of the loaded
    grid, and either the paysheet key with the Firebase message or
    [null] with the local-storage message. The month is no inherited
    property name, so that the records are the ones the code builds. *)
Theorem X13_import_outcomes (file : File) (month year now : string) (w : World) :
  ~ In month inherited ->
  exists (result : ImportResult) (w' : World),
    importPaysheetFile env file month year now w = (Normal result, w')
    /\ match result with
       | Failed message =>
           (loadGrid env file = Throw message /\ w' = w)
           \/ exists parsedData w1,
                loadGrid env file = Normal parsedData
                /\ localStorageSetItem env ("paysheet_" +:+ month +:+ "_" +:+ year)
                     (localBatch parsedData month year now) w1 = (Throw message, w')
       | Imported message data paysheetId =>
           exists parsedData,
             loadGrid env file = Normal parsedData
             /\ data = processDataForLocalStorage parsedData month year now
             /\ ((paysheetId = Some (month +:+ "_" +:+ year)
                  /\ message = firebaseMessage (length data))
                 \/ (paysheetId = None /\ message = localMessage (length data)))
       end.
Proof.
  intros _. rewrite import_run.
  destruct (loadGrid env file) as [parsedData|message] eqn:Hload.
  2:{ exists (Failed message), w. split; [reflexivity|]. now left. }
  destruct (firebaseAttempt env parsedData month year now w) as [[result|e] w'] eqn:Hfirebase.
  - exists result, w'. split; [reflexivity|].
    rewrite (FallbackFacts.firebaseAttempt_result env _ _ _ _ _ _ _ Hfirebase).
    exists parsedData. repeat split. now left.
  - destruct (localStorageSetItem env _ _ w') as [[[]|failure] w''] eqn:Hlocal.
    + eexists. eexists. split; [reflexivity|].
      exists parsedData. repeat split. now right.
    + exists (Failed failure), w''. split; [reflexivity|].
      right. now exists parsedData, w'.
Qed.

Lemma loadGrid_messages (file : File) (message : string) :
  loadGrid env file = Throw message ->
  In message ["Failed to read CSV file"; "Failed to read Excel file";
              "Unsupported file format"; tooFewRows]
  \/ exists error, message = "Failed to parse Excel file: " +:+ error.
Proof.
  unfold loadGrid, readFile, parseFile, parseExcel.
  destruct (isCSV file).
  - destruct (content file) as [text|].
    + unfold validatePaysheetData.
      destruct (length (parseCSV text) <? 2)%nat.
      * cbn [snd]. intros H; inversion H; subst. left. one_of.
      * destruct (parseCSV text); discriminate.
    + intros H; inversion H; subst. left. one_of.
  - destruct (isExcel file).
    + destruct (content file) as [buffer|].
      * destruct (xlsxFirstSheet env buffer) as [sheet|error].
        -- unfold validatePaysheetData.
           destruct (_ <? 2)%nat.
           ++ cbn [snd]. intros H; inversion H; subst. left. one_of.
           ++ destruct sheet; discriminate.
        -- intros H; inversion H; subst. right. now exists error.
      * intros H; inversion H; subst. left. one_of.
    + intros H; inversion H; subst. left. one_of.
Qed.

(** X14. A file whose name ends in none of [.csv], [.xlsx] and [.xls] is
    answered with [Unsupported file format]; a file the reader cannot
    read is answered with one of the three messages of [readFile]; and
    whenever loading fails the outcome is the failure with the error's
    message and the stores are untouched. The longer message of the
    parser choice is never the outcome of loading: [readFile] has
    rejected such a file before. *)
Theorem X14_load_failures (file : File) (month year now : string) (w : World) :
  (isCSV file = false -> isExcel file = false ->
   importPaysheetFile env file month year now w
   = (Normal (Failed "Unsupported file format"), w))
  /\ (content file = None ->
      exists message,
        importPaysheetFile env file month year now w = (Normal (Failed message), w)
        /\ In message ["Failed to read CSV file"; "Failed to read Excel file";
                       "Unsupported file format"])
  /\ (forall message : string,
         loadGrid env file = Throw message ->
         importPaysheetFile env file month year now w = (Normal (Failed message), w)
         /\ message <> longMessage).
Proof.
  assert (Hrun : forall message, loadGrid env file = Throw message ->
                 importPaysheetFile env file month year now w = (Normal (Failed message), w)).
  { intros message Hload. now rewrite import_run, Hload. }
  split; [|split].
  - intros Hcsv Hexcel. apply Hrun. unfold loadGrid, readFile. now rewrite Hcsv, Hexcel.
  - intros Hnone.
    assert (Hload : exists message,
               loadGrid env file = Throw message
               /\ In message ["Failed to read CSV file"; "Failed to read Excel file";
                              "Unsupported file format"]).
    { unfold loadGrid, readFile. rewrite Hnone.
      destruct (isCSV file); [eexists; split; [reflexivity|one_of]|].
      destruct (isExcel file); eexists; (split; [reflexivity|one_of]). }
    destruct Hload as (message & Hload & Hin). exists message. split; [now apply Hrun|exact Hin].
  - intros message Hload. split; [now apply Hrun|].
    apply loadGrid_messages in Hload as [Hin|[error ->]].
    + cbn in Hin. destruct Hin as [<-|[<-|[<-|[<-|[]]]]]; discriminate.
    + discriminate.
Qed.

End AnyStores.

(** Witness for X13: the file of [scenarioExcel] while Firebase is out of
    reach. *)
Lemma X13_witness :
  let file := csvFile ("Teacher ID,Name of Staff,Revised Basic Pay"
                         +:+ String lineFeed "T001,Dr. Smith,50000") in
  ~ In "January" inherited
  /\ exists result w',
       importPaysheetFile offline file "January" "2025" noon ∅ = (Normal result, w').
Proof.
  intros file.
  assert (Hmonth : ~ In "January" inherited).
  { cbn. intros H. repeat (destruct H as [H|H]; [discriminate H|]). exact H. }
  split; [exact Hmonth|].
  destruct (X13_import_outcomes offline file "January" "2025" noon ∅ Hmonth)
    as (result & w' & Hrun & _).
  exists result, w'. exact Hrun.
Defined.

(** Witness for X14: a PDF file. *)
Lemma X14_witness :
  let file := {| name := "January.pdf"; content := Some "%PDF" |} in
  isCSV file = false /\ isExcel file = false
  /\ importPaysheetFile offline file "January" "2025" noon ∅
     = (Normal (Failed "Unsupported file format"), ∅).
Proof.
  intros file.
  assert (Hcsv : isCSV file = false) by reflexivity.
  assert (Hexcel : isExcel file = false) by reflexivity.
  split; [exact Hcsv|]. split; [exact Hexcel|].
  exact (proj1 (X14_load_failures offline file "January" "2025" noon ∅) Hcsv Hexcel).
Defined.




Lemma includes_empty (s : string) : includes s EmptyString = true.
Proof. now destruct s. Qed.

Lemma found_by_empty_header (required : RequiredColumn) (normalizedHeaders : list string) :
  patterns required <> [] -> In EmptyString normalizedHeaders ->
  found required normalizedHeaders = true.
Proof.
  intros Hpatterns Hin. unfold found. apply existsb_exists.
  exists EmptyString. split; [exact Hin|].
  destruct (patterns required) as [|pattern rest]; [contradiction|].
  cbn [existsb]. unfold patternMatches at 1. now rewrite includes_empty, orb_true_r.
Qed.

Lemma separators_normalize (header : string) :
  allChars separator header = true -> normalizeHeader header = EmptyString.
Proof.
  intros Hall. unfold normalizeHeader.
  assert (Hstrip : stripSeparators (toLowerCase header) = EmptyString).
  { induction header as [|c r IH]; [reflexivity|].
    cbn [allChars] in Hall. apply andb_true_iff in Hall as [Hc Hr].
    cbn [toLowerCase]. unfold stripSeparators in *. cbn [filterChars].
    rewrite (IH Hr).
    destruct c as [[] [] [] [] [] [] [] []]; first [discriminate Hc | reflexivity]. }
  now rewrite Hstrip.
Qed.

(** X16. A header cell made only of white space, hyphens, underscores
    and periods, the empty cell included, normalises to the empty string,
    which is a substring of every alias: with such a cell in the header
    row the validator warns about no column at all. *)
Theorem X16_empty_header_silences_warnings (headers : Row) (header : string) :
  In header headers ->
  allChars separator header = true ->
  normalizeHeader header = EmptyString /\ warnings headers = [].
Proof.
  intros Hin Hall. pose proof (separators_normalize header Hall) as Hempty.
  split; [exact Hempty|].
  assert (Hnormalized : In EmptyString (map normalizeHeader headers)).
  { rewrite <- Hempty. now apply in_map. }
  unfold warnings, requiredColumns. cbn [List.filter].
  rewrite !found_by_empty_header; try exact Hnormalized; try discriminate.
  reflexivity.
Qed.

(** Witness for X16: a CSV header line that ends with a comma. *)
Lemma X16_witness :
  let headers := parseLine "Designation,Remarks," in
  In EmptyString headers
  /\ allChars separator EmptyString = true
  /\ warnings headers = []
  /\ warnings ["Designation"; "Remarks"] = ["Teacher ID"; "Teacher Name"; "Basic Salary"].
Proof.
  intros headers.
  assert (Hin : In EmptyString headers) by (right; right; left; reflexivity).
  assert (Hall : allChars separator EmptyString = true) by reflexivity.
  split; [exact Hin|]. split; [exact Hall|].
  split; [|reflexivity].
  exact (proj2 (X16_empty_header_silences_warnings headers EmptyString Hin Hall)).
Defined.

(** *** Stores that keep what is set *)

Lemma saveSlips_online (processedData : list PayRecord.t) (month year now paysheetKey : string)
    (w : gmap string Stored * gmap string Stored) :
  saveSlips online processedData month year now paysheetKey w
  = (Normal tt, (withSlips processedData month year now paysheetKey (fst w), snd w)).
Proof.
  revert w. induction processedData as [|record rest IH]; intros [tree local].
  - reflexivity.
  - cbn [saveSlips]. unfold mbind, eff_bind. cbn [firebaseSet online fst snd].
    rewrite IH. reflexivity.
Qed.

Lemma withSlips_other (processedData : list PayRecord.t) (month year now paysheetKey : string)
    (tree : gmap string Stored) (path : string) :
  Forall (fun record => slipPath record month year <> path) processedData ->
  withSlips processedData month year now paysheetKey tree !! path = tree !! path.
Proof.
  intros Hother. revert tree.
  induction Hother as [|record rest Hrecord Hrest IH]; intros tree; [reflexivity|].
  unfold withSlips in *. cbn [fold_left]. rewrite IH. now apply lookup_insert_ne.
Qed.


Lemma slipPath_inj (record other : PayRecord.t) (month year : string) :
  slipPath other month year = slipPath record month year ->
  PayRecord.teacherId other = PayRecord.teacherId record.
Proof.
  unfold slipPath. intros Hpath.
  apply (inj (String.append "salarySlips/")) in Hpath.
  now apply RecordFacts.append_cancel_r in Hpath.
Qed.

Lemma withSlips_slip (processedData : list PayRecord.t) (month year now paysheetKey : string)
    (tree : gmap string Stored) (record : PayRecord.t) :
  In record processedData ->
  exists other,
    In other processedData
    /\ PayRecord.teacherId other = PayRecord.teacherId record
    /\ withSlips processedData month year now paysheetKey tree
         !! slipPath record month year
       = Some (StoredSlip (salarySlip other month year now paysheetKey)).
Proof.
  revert tree record.
  induction processedData as [|first rest IH]; intros tree record Hin; [contradiction|].
  change (withSlips (first :: rest) month year now paysheetKey tree)
    with (withSlips rest month year now paysheetKey
            (<[slipPath first month year
               := StoredSlip (salarySlip first month year now paysheetKey)]> tree)).
  destruct (decide (Exists (fun other => PayRecord.teacherId other
                                         = PayRecord.teacherId record) rest))
    as [Hlater|Hnone].
  - apply Exists_exists in Hlater as (later & Hlater & Hsame).
    apply list_elem_of_In in Hlater.
    destruct (IH (<[slipPath first month year
                    := StoredSlip (salarySlip first month year now paysheetKey)]> tree)
                later Hlater) as (other & Hother & Hid & Hfound).
    exists other. split; [now right|]. split; [congruence|].
    unfold slipPath in *. now rewrite <- Hsame.
  - destruct Hin as [->|Hin].
    2:{ exfalso. apply Hnone. apply Exists_exists. exists record.
        split; [now apply list_elem_of_In|reflexivity]. }
    exists record. split; [now left|]. split; [reflexivity|].
    rewrite withSlips_other; [apply lookup_insert_eq|].
    apply List.Forall_forall. intros other Hother Hpath.
    apply Hnone. apply Exists_exists. exists other.
    split; [now apply list_elem_of_In|now apply slipPath_inj in Hpath].
Qed.

(** X17. With stores that never fail and keep what is set, a file that
    loads is imported through Firebase: the outcome carries the paysheet
    key; the paysheet object is under [paysheets/<key>] in Firebase and,
    the same object, under [paysheet_<key>] in localStorage; and the slip
    path of every record holds the slip of a record with the same
    [teacherId]. The month is no inherited property name and no
    [teacherId] is [__proto__], so that the paysheet object is the one
    the code builds. *)
Theorem X17_reliable_stores_hold_the_paysheet
    (file : File) (month year now : string) (parsedData : Grid)
    (w : gmap string Stored * gmap string Stored) :
  loadGrid online file = Normal parsedData ->
  ~ In month inherited ->
  ownKeys (processDataForLocalStorage parsedData month year now) ->
  let processedData := processDataForLocalStorage parsedData month year now in
  let paysheetKey := month +:+ "_" +:+ year in
  let sheet := StoredPaysheet (firebasePaysheet processedData month year now) in
  exists w' : gmap string Stored * gmap string Stored,
    importPaysheetFile online file month year now w
    = (Normal (Imported (firebaseMessage (length processedData)) processedData
                 (Some paysheetKey)), w')
    /\ snd w' = <["paysheet_" +:+ month +:+ "_" +:+ year := sheet]> (snd w)
    /\ fst w' !! ("paysheets/" +:+ paysheetKey) = Some sheet
    /\ forall record : PayRecord.t,
         In record processedData ->
         exists other : PayRecord.t,
           In other processedData
           /\ PayRecord.teacherId other = PayRecord.teacherId record
           /\ fst w' !! slipPath record month year
              = Some (StoredSlip (salarySlip other month year now paysheetKey)).
Proof.
  intros Hload _ _ processedData paysheetKey sheet.
  assert (Hattempt :
            firebaseAttempt online parsedData month year now w
            = (Normal (Imported (firebaseMessage (length processedData)) processedData
                         (Some paysheetKey)),
               (withSlips processedData month year now paysheetKey
                  (<["paysheets/" +:+ paysheetKey := sheet]> (fst w)),
                <["paysheet_" +:+ month +:+ "_" +:+ year := sheet]> (snd w)))).
  { unfold firebaseAttempt, mbind, eff_bind.
    cbn [firebaseStart firebaseSet localStorageSetItem online mret eff_ret fst snd].
    fold processedData. fold paysheetKey. fold sheet.
    rewrite saveSlips_online. reflexivity. }
  eexists. split; [now rewrite import_run, Hload, Hattempt|].
  cbn [fst snd]. split; [reflexivity|]. split.
  - rewrite withSlips_other; [apply lookup_insert_eq|].
    apply List.Forall_forall. intros record _. unfold slipPath. discriminate.
  - intros record Hin. now apply withSlips_slip.
Qed.

(** Witness for X17: the file of [scenarioExcel]. *)
Lemma X17_witness :
  let file := csvFile ("Teacher ID,Name of Staff,Revised Basic Pay"
                         +:+ String lineFeed "T001,Dr. Smith,50000") in
  loadGrid online file = Normal scenarioExcel
  /\ ~ In "January" inherited
  /\ ownKeys (processDataForLocalStorage scenarioExcel "January" "2025" noon)
  /\ exists w',
       importPaysheetFile online file "January" "2025" noon (∅, ∅)
       = (Normal (Imported (firebaseMessage 1)
                    (processDataForLocalStorage scenarioExcel "January" "2025" noon)
                    (Some "January_2025")), w').
Proof.
  intros file.
  assert (Hload : loadGrid online file = Normal scenarioExcel) by reflexivity.
  assert (Hmonth : ~ In "January" inherited).
  { cbn. intros H. repeat (destruct H as [H|H]; [discriminate H|]). exact H. }
  assert (Hown : ownKeys (processDataForLocalStorage scenarioExcel "January" "2025" noon)).
  { apply List.Forall_forall. intros record [<-|[]]. vm_compute. discriminate. }
  split; [exact Hload|]. split; [exact Hmonth|]. split; [exact Hown|].
  destruct (X17_reliable_stores_hold_the_paysheet file "January" "2025" noon scenarioExcel
              (∅, ∅) Hload Hmonth Hown) as (w' & Hrun & _).
  exists w'. exact Hrun.
Defined.

End OutcomeFacts.

(** ** Amounts followed by text *)

Module AmountFacts.
Import JsString JsNumber Importer Views MoreViews Examples.







End AmountFacts.

(** ** The validator against the column mapping *)

Module ConsistencyFacts.
Import JsString JsNumber Importer Views MoreViews Examples.

Lemma prefix_append (sub s rest : string) :
  String.prefix sub s = true -> String.prefix sub (s +:+ rest) = true.
Proof.
  revert s. induction sub as [|c sub IH]; intros s Hprefix;
    [now destruct (s +:+ rest)|].
  destruct s as [|d s]; [discriminate Hprefix|].
  change (String d s +:+ rest) with (String d (s +:+ rest)).
  cbn [String.prefix] in *. destruct (ascii_dec c d); [now apply IH|discriminate].
Qed.

Lemma includes_append_l (s rest sub : string) :
  includes s sub = true -> includes (s +:+ rest) sub = true.
Proof.
  induction s as [|c s IH]; intros Hs.
  - cbn [includes] in Hs. rewrite orb_false_r in Hs.
    destruct sub; [|discriminate Hs]. now destruct rest.
  - change (String c s +:+ rest) with (String c (s +:+ rest)).
    cbn [includes] in *. apply orb_true_iff in Hs as [Hprefix|Hlater].
    + change (String c (s +:+ rest)) with (String c s +:+ rest).
      now rewrite (prefix_append _ _ _ Hprefix).
    + rewrite (IH Hlater). apply orb_true_r.
Qed.

Lemma includes_cons (c : ascii) (s sub : string) :
  includes s sub = true -> includes (String c s) sub = true.
Proof. intros Hs. cbn [includes]. rewrite Hs. apply orb_true_r. Qed.

Lemma includes_trimStart (s sub : string) :
  includes (trimStart s) sub = true -> includes s sub = true.
Proof.
  induction s as [|c s IH]; [easy|].
  cbn [trimStart]. destruct (isWhiteSpace c); [|easy].
  intros Hs. now apply includes_cons, IH.
Qed.

Lemma trimEnd_split (s : string) : exists rest, s = trimEnd s +:+ rest.
Proof.
  induction s as [|c s [rest IH]]; [now exists EmptyString|].
  cbn [trimEnd]. destruct (trimEnd s) as [|d t] eqn:Ht.
  - destruct (isWhiteSpace c).
    + now exists (String c s).
    + exists s. reflexivity.
  - exists rest. rewrite IH at 1. reflexivity.
Qed.

Lemma includes_trim (s sub : string) : includes (trim s) sub = true -> includes s sub = true.
Proof.
  unfold trim. intros Hs. apply includes_trimStart.
  destruct (trimEnd_split (trimStart s)) as [rest Hsplit].
  rewrite Hsplit. now apply includes_append_l.
Qed.

Lemma filterChars_prefix (keep : ascii -> bool) (sub s : string) :
  allChars keep sub = true -> String.prefix sub s = true ->
  String.prefix sub (filterChars keep s) = true.
Proof.
  revert s. induction sub as [|c sub IH]; intros s Hkeep Hprefix;
    [now destruct (filterChars keep s)|].
  destruct s as [|d s]; [discriminate Hprefix|].
  cbn [allChars] in Hkeep. apply andb_true_iff in Hkeep as [Hc Hsub].
  cbn [String.prefix] in Hprefix. destruct (ascii_dec c d) as [<-|]; [|discriminate].
  cbn [filterChars]. rewrite Hc. cbn [String.prefix].
  destruct (ascii_dec c c); [now apply IH|contradiction].
Qed.

Lemma filterChars_includes (keep : ascii -> bool) (s sub : string) :
  allChars keep sub = true -> includes s sub = true ->
  includes (filterChars keep s) sub = true.
Proof.
  intros Hkeep. induction s as [|c s IH]; intros Hs.
  - exact Hs.
  - cbn [includes] in Hs. apply orb_true_iff in Hs as [Hprefix|Hlater].
    + pose proof (filterChars_prefix keep sub (String c s) Hkeep Hprefix) as Hp.
      destruct (filterChars keep (String c s)); cbn [includes]; now rewrite Hp.
    + cbn [filterChars]. destruct (keep c); [apply includes_cons|]; now apply IH.
Qed.

Lemma filterChars_solid (s : string) : solid (stripSeparators s).
Proof.
  unfold solid, stripSeparators. induction s as [|c s IH]; [reflexivity|].
  cbn [filterChars].
  destruct (negb (isWhiteSpace c || Ascii.eqb c "-" || Ascii.eqb c "_" || Ascii.eqb c "."))
    eqn:Hkeep; [|exact IH].
  cbn [allChars]. rewrite IH, andb_true_r.
  apply negb_true_iff in Hkeep. apply negb_true_iff.
  now destruct (isWhiteSpace c).
Qed.

Lemma trim_solid (s : string) : solid s -> trim s = s.
Proof.
  intros Hs.
  pose proof (CoercionFacts.trim_padded EmptyString s EmptyString eq_refl Hs eq_refl) as Htrim.
  change (EmptyString +:+ (s +:+ EmptyString)) with (s +:+ EmptyString) in Htrim.
  assert (Hnil : s +:+ EmptyString = s).
  { clear. induction s as [|c s IH]; [reflexivity|].
    change (String c (s +:+ EmptyString) = String c s). now rewrite IH. }
  now rewrite Hnil in Htrim.
Qed.

(** A token of lower-case letters found in the header as the normaliser
    sees it is found in the header as the validator sees it. *)
Lemma token_survives (header token : string) :
  allChars (fun c => negb (separator c)) token = true ->
  includes (trim (toLowerCase header)) token = true ->
  includes (normalizeHeader header) token = true.
Proof.
  intros Htoken Hfound. unfold normalizeHeader.
  rewrite (trim_solid _ (filterChars_solid _)).
  apply filterChars_includes; [exact Htoken|]. now apply includes_trim.
Qed.

Ltac other_fields :=
  repeat match goal with
         | |- context [if ?c then _ else _] => destruct c; [discriminate|]
         end;
  discriminate.

Lemma teacherId_token (header : string) :
  headerField header = Some "teacherId" ->
  includes (trim (toLowerCase header)) "id" = true.
Proof.
  unfold headerField. cbv zeta.
  destruct (includes (trim (toLowerCase header)) "teacher"
            && includes (trim (toLowerCase header)) "id") eqn:Hfirst.
  - intros _. now apply andb_true_iff in Hfirst as [_ Hid].
  - other_fields.
Qed.

Lemma teacherName_token (header : string) :
  headerField header = Some "teacherName" ->
  includes (trim (toLowerCase header)) "name" = true.
Proof.
  unfold headerField. cbv zeta.
  destruct (includes (trim (toLowerCase header)) "teacher"
            && includes (trim (toLowerCase header)) "id"); [discriminate|].
  destruct (includes (trim (toLowerCase header)) "name"
            && includes (trim (toLowerCase header)) "staff") eqn:Hsecond.
  - intros _. now apply andb_true_iff in Hsecond as [Hname _].
  - other_fields.
Qed.

Lemma revisedBasicPay_token (header : string) :
  headerField header = Some "revisedBasicPay" ->
  includes (trim (toLowerCase header)) "basic" = true.
Proof.
  unfold headerField. cbv zeta.
  repeat match goal with
         | |- context [if ?c then _ else _] =>
             lazymatch c with
             | (includes _ "revised" && _) => fail
             | _ => destruct c; [discriminate|]
             end
         end.
  destruct (includes (trim (toLowerCase header)) "revised"
            && includes (trim (toLowerCase header)) "basic") eqn:Hthis.
  - intros _. now apply andb_true_iff in Hthis as [_ Hbasic].
  - other_fields.
Qed.

Lemma mapped_is_found (headers : Row) (field token : string) (required : RequiredColumn) :
  (forall header, headerField header = Some field ->
                  includes (trim (toLowerCase header)) token = true) ->
  allChars (fun c => negb (separator c)) token = true ->
  In token (map stripSeparators (patterns required)) ->
  buildColumnMap headers !! field <> None ->
  found required (map normalizeHeader headers) = true.
Proof.
  intros Htoken Hletters Hpattern Hmapped.
  destruct (buildColumnMap headers !! field) as [column|] eqn:Hcolumn; [|contradiction].
  apply ResolverFacts.buildColumnMap_lookup in Hcolumn as [(header & Hheader & Hfield) _].
  apply in_map_iff in Hpattern as (pattern & Hstrip & Hpattern).
  apply ResolverFacts.found_iff. exists header, pattern.
  split; [apply list_elem_of_In; eapply list_elem_of_lookup_2; exact Hheader|].
  split; [exact Hpattern|]. left. rewrite Hstrip.
  apply token_survives; [exact Hletters|]. now apply Htoken.
Qed.

(** X20. The validator never warns about a column the normaliser maps:
    when a header is mapped to [teacherId], [teacherName] or
    [revisedBasicPay], the warning for [Teacher ID], [Teacher Name] or
    [Basic Salary] is not given. *)
Theorem X20_mapped_columns_are_not_warned (headers : Row) :
  (buildColumnMap headers !! "teacherId" <> None -> ~ In "Teacher ID" (warnings headers))
  /\ (buildColumnMap headers !! "teacherName" <> None ->
      ~ In "Teacher Name" (warnings headers))
  /\ (buildColumnMap headers !! "revisedBasicPay" <> None ->
      ~ In "Basic Salary" (warnings headers)).
Proof.
  split; [|split]; intros Hmapped.
  - pose proof (mapped_is_found headers "teacherId" "id" teacherIdColumn
                  teacherId_token eq_refl) as Hfound.
    specialize (Hfound ltac:(cbn; tauto) Hmapped).
    unfold warnings, requiredColumns. cbn [List.filter].
    change (found teacherIdColumn (map normalizeHeader headers) = true) in Hfound.
    unfold teacherIdColumn in Hfound. cbn [nth requiredColumns] in Hfound.
    rewrite Hfound. cbn [negb].
    repeat match goal with
           | |- context [if ?c then _ else _] => destruct c
           end; cbn; intuition discriminate.
  - pose proof (mapped_is_found headers "teacherName" "name" teacherNameColumn
                  teacherName_token eq_refl) as Hfound.
    specialize (Hfound ltac:(cbn; tauto) Hmapped).
    unfold warnings, requiredColumns. cbn [List.filter].
    unfold teacherNameColumn in Hfound. cbn [nth requiredColumns] in Hfound.
    rewrite Hfound. cbn [negb].
    repeat match goal with
           | |- context [if ?c then _ else _] => destruct c
           end; cbn; intuition discriminate.
  - pose proof (mapped_is_found headers "revisedBasicPay" "basic" basicSalaryColumn
                  revisedBasicPay_token eq_refl) as Hfound.
    specialize (Hfound ltac:(cbn; tauto) Hmapped).
    unfold warnings, requiredColumns. cbn [List.filter].
    unfold basicSalaryColumn in Hfound. cbn [nth requiredColumns] in Hfound.
    rewrite Hfound. cbn [negb].
    repeat match goal with
           | |- context [if ?c then _ else _] => destruct c
           end; cbn; intuition discriminate.
Qed.

(** Witness for X20: the headers of the Excel sheet. *)
Lemma X20_witness :
  let headers := ["Teacher ID"; "Name of Staff"; "Revised Basic Pay"] in
  buildColumnMap headers !! "teacherName" <> None
  /\ ~ In "Teacher Name" (warnings headers).
Proof.
  intros headers.
  assert (Hmapped : buildColumnMap headers !! "teacherName" <> None)
    by (vm_compute; discriminate).
  split; [exact Hmapped|].
  exact (proj1 (proj2 (X20_mapped_columns_are_not_warned headers)) Hmapped).
Defined.

End ConsistencyFacts.
